(** * GammaRips MCP: the tiered query, fallback and redaction pipeline

    A shallow embedding of [src/tools/overnight_signals.py] (the four tools
    and [_get_user_tier]) and of [src/data/firestore_client.py] (the
    primary store adapter), followed by the properties the specification
    states about them.

    Python objects that the code shares and mutates (dicts) live in a heap
    and are referred to by location; [dict.copy()] allocates, [dict.pop]
    and item assignment update the heap in place.  Calls to the two store
    clients are recorded in a trace, together with the heap the client
    received, the value it returned and the heap it left.

    Parameters have the types of their annotations ([str] is [string],
    [int] is [Z]); what comes back from a client or out of a dict is a
    dynamically typed value, and an operation applied to a value of the
    wrong type raises as in Python.  Each tool awaits one call at a time,
    so [await] is sequencing.  Logging is not modelled. *)

From stdpp Require Import base gmap strings list pretty.

Open Scope Z_scope.
Open Scope string_scope.
Open Scope list_scope.

(** ** Python values *)

Definition loc := positive.
Bind Scope positive_scope with loc.

(** The fragment of Python's values the tools handle.  Lists are only
    iterated or built afresh by the modelled code, so they are values;
    dicts are heap objects. *)
#[warnings="-register-all"]
Inductive pyval :=
  | PNone
  | PBool (b : bool)
  | PInt (n : Z)
  | PStr (s : string)
  | PList (xs : list pyval)
  | PRef (l : loc).

(** [Dict[str, Any]] *)
Abbreviation dict := (gmap string pyval).
Abbreviation heap := (gmap loc (gmap string pyval)).

(** Exceptions.  [Exception] stands for an instance of any subclass of
    Python's [Exception]; [BaseOnly] for one that derives from
    [BaseException] alone (KeyboardInterrupt, SystemExit, task
    cancellation), which [except Exception] does not catch. *)
Inductive exn :=
  | Exception (name : string)
  | BaseOnly (name : string).

Inductive result (A : Type) :=
  | Ok (a : A)
  | Raise (e : exn).
Arguments Ok {A} a.
Arguments Raise {A} e.

Definition AttributeError : exn := Exception "AttributeError".
Definition TypeError : exn := Exception "TypeError".

(** ** A state-and-exception monad *)

Definition ST (S A : Type) : Type := S → result A * S.

Definition st_ret {S A} (a : A) : ST S A := λ s, (Ok a, s).
Definition st_bind {S A B} (f : A → ST S B) (m : ST S A) : ST S B :=
  λ s, match m s with
       | (Ok a, s') => f a s'
       | (Raise e, s') => (Raise e, s')
       end.
Definition st_raise {S A} (e : exn) : ST S A := λ s, (Raise e, s).

#[global] Instance ST_ret S : MRet (ST S) := λ A, st_ret.
#[global] Instance ST_bind S : MBind (ST S) := λ A B, st_bind.

(** [try: body except Exception as e: handler] *)
Definition try_except {S A} (body : ST S A) (handler : string → ST S A) : ST S A :=
  λ s, match body s with
       | (Raise (Exception name), s') => handler name s'
       | r => r
       end.

(** [for x in xs: acc.append(body(x))], the loop shape the tools use *)
Fixpoint for_append {S A B} (body : A → ST S B) (xs : list A) : ST S (list B) :=
  match xs with
  | [] => mret []
  | x :: xs' => y ← body x; ys ← for_append body xs'; mret (y :: ys)
  end.

(** [for x in xs: body(x)] *)
Fixpoint for_each {S A} (body : A → ST S unit) (xs : list A) : ST S unit :=
  match xs with
  | [] => mret tt
  | x :: xs' => body x;; for_each body xs'
  end.

(** ** Python operations on values, over a heap *)

(** Truth value testing ([if not x]).  A location the heap does not hold
    cannot arise from the code; it counts as an ordinary, truthy object. *)
Definition py_truthy (h : heap) (v : pyval) : bool :=
  match v with
  | PNone => false
  | PBool b => b
  | PInt n => negb (bool_decide (n = 0))
  | PStr s => negb (bool_decide (s = ""))
  | PList xs => negb (bool_decide (xs = []))
  | PRef l => match h !! l with
              | Some d => negb (bool_decide (dom d = ∅))
              | None => true
              end
  end.

(** [v == "s"] for a string literal on the right. *)
Definition py_eq_str (v : pyval) (s : string) : bool :=
  match v with
  | PStr t => bool_decide (t = s)
  | _ => false
  end.

(** [v.get(key, default)] *)
Definition heap_get (h : heap) (v : pyval) (key : string) (dflt : pyval) : result pyval :=
  match v with
  | PRef l => match h !! l with
              | Some d => Ok (default dflt (d !! key))
              | None => Raise AttributeError
              end
  | _ => Raise AttributeError
  end.

(** [len(v)] *)
Definition heap_len (h : heap) (v : pyval) : result Z :=
  match v with
  | PList xs => Ok (Z.of_nat (length xs))
  | PStr s => Ok (Z.of_nat (String.length s))
  | PRef l => match h !! l with
              | Some d => Ok (Z.of_nat (size d))
              | None => Raise TypeError
              end
  | _ => Raise TypeError
  end.

(** The items [for x in v] ranges over: list elements, the characters of a
    string, the keys of a dict. *)
Definition heap_iter (h : heap) (v : pyval) : result (list pyval) :=
  match v with
  | PList xs => Ok xs
  | PStr s => Ok ((λ c, PStr (String c "")) <$> String.list_ascii_of_string s)
  | PRef l => match h !! l with
              | Some d => Ok (PStr <$> (map_to_list d).*1)
              | None => Raise TypeError
              end
  | _ => Raise TypeError
  end.

(** Allocation of a new dict object. *)
Definition heap_alloc (h : heap) (d : dict) : loc * heap :=
  let l := fresh (dom h) in (l, <[l := d]> h).

(** [v.copy()]: a shallow copy.  A list has [copy] too. *)
Definition heap_copy (h : heap) (v : pyval) : result pyval * heap :=
  match v with
  | PRef l => match h !! l with
              | Some d => let '(l', h') := heap_alloc h d in (Ok (PRef l'), h')
              | None => (Raise AttributeError, h)
              end
  | PList xs => (Ok (PList xs), h)
  | _ => (Raise AttributeError, h)
  end.

(** [v.pop(key, default)]; [list.pop] takes at most one argument. *)
Definition heap_pop (h : heap) (v : pyval) (key : string) (dflt : pyval)
    : result pyval * heap :=
  match v with
  | PRef l => match h !! l with
              | Some d => (Ok (default dflt (d !! key)), <[l := delete key d]> h)
              | None => (Raise AttributeError, h)
              end
  | PList _ => (Raise TypeError, h)
  | _ => (Raise AttributeError, h)
  end.

(** [v[key] = x] *)
Definition heap_setitem (h : heap) (v : pyval) (key : string) (x : pyval)
    : result unit * heap :=
  match v with
  | PRef l => match h !! l with
              | Some d => (Ok tt, <[l := <[key := x]> d]> h)
              | None => (Raise TypeError, h)
              end
  | _ => (Raise TypeError, h)
  end.

(** ** The primary store adapter ([src/data/firestore_client.py]) *)

Module FirestoreClient.
Section Adapter.
(** [W] is the state of the world outside the process (the stores'
    contents, the network); [Doc] the document snapshots the Firestore
    library hands out. *)
Context {W Doc : Type}.

Inductive where_op := OpEq | OpGe.
Inductive order_direction := ASCENDING | DESCENDING.

(** A Firestore query as the client builds it. *)
Record query := Query {
  q_collection : string;
  q_where : list (string * where_op * pyval);
  q_order_by : list (string * order_direction);
  q_limit : option Z
}.

(** The [google.cloud.firestore] library: running a query and reading a
    document may touch the world, allocate objects, or raise. *)
Record firestore := Firestore {
  stream : query → ST (W * heap) (list Doc);
  to_dict : Doc → ST (W * heap) pyval
}.

Context (client : firestore).

Definition signals_collection : string := "overnight_signals".
Definition themes_collection : string := "market_themes".

Definition collection (name : string) : query := Query name [] [] None.
Definition where_ (q : query) (field : string) (o : where_op) (v : pyval) : query :=
  Query (q_collection q) (q_where q ++ [(field, o, v)]) (q_order_by q) (q_limit q).
Definition order_by (q : query) (field : string) (d : order_direction) : query :=
  Query (q_collection q) (q_where q) (q_order_by q ++ [(field, d)]) (q_limit q).
Definition limit (q : query) (n : Z) : query :=
  Query (q_collection q) (q_where q) (q_order_by q) (Some n).

Definition dict_get (v : pyval) (key : string) (dflt : pyval) : ST (W * heap) pyval :=
  λ s, (heap_get s.2 v key dflt, s).

(** The query [get_overnight_signals] sends. *)
Definition signals_query (date direction : string) (min_score limit_ : Z) : query :=
  let collection_ref := collection signals_collection in
  let query := where_ collection_ref "scan_date" OpEq (PStr date) in
  let query := if bool_decide (direction ≠ "ALL")
               then where_ query "direction" OpEq (PStr direction) else query in
  let query := if bool_decide (min_score > 0)
               then where_ query "overnight_score" OpGe (PInt min_score) else query in
  let query := order_by query "overnight_score" DESCENDING in
  limit query limit_.

(** The [try] block of [get_overnight_signals]. *)
Definition get_overnight_signals_try (date direction : string) (min_score limit_ : Z)
    : ST (W * heap) pyval :=
  docs ← stream client (signals_query date direction min_score limit_);
  signals ← for_append (to_dict client) docs;
  mret (PList signals).

Definition get_overnight_signals (date direction : string) (min_score limit_ : Z)
    : ST (W * heap) pyval :=
  try_except (get_overnight_signals_try date direction min_score limit_)
             (λ e, mret (PList [])).

Definition detail_query (ticker date : string) : query :=
  let collection_ref := collection signals_collection in
  limit (where_ (where_ collection_ref "scan_date" OpEq (PStr date))
                "ticker" OpEq (PStr ticker)) 1.

(** The [try] block of [get_signal_detail]. *)
Definition get_signal_detail_try (ticker date : string) : ST (W * heap) pyval :=
  docs ← stream client (detail_query ticker date);
  match docs with
  | doc0 :: _ => to_dict client doc0
  | [] => mret PNone
  end.

Definition get_signal_detail (ticker date : string) : ST (W * heap) pyval :=
  try_except (get_signal_detail_try ticker date) (λ e, mret PNone).

Definition themes_query (date : string) : query :=
  let collection_ref := collection themes_collection in
  limit (where_ collection_ref "scan_date" OpEq (PStr date)) 1.

(** The [try] block of [get_market_themes]. *)
Definition get_market_themes_try (date : string) : ST (W * heap) pyval :=
  docs ← stream client (themes_query date);
  match docs with
  | doc0 :: _ => data ← to_dict client doc0; dict_get data "themes" (PList [])
  | [] => mret (PList [])
  end.

Definition get_market_themes (date : string) : ST (W * heap) pyval :=
  try_except (get_market_themes_try date) (λ e, mret (PList [])).
End Adapter.
Arguments firestore : clear implicits.
End FirestoreClient.

(** ** Construction of the primary store adapter ([FirestoreClient.__init__]) *)

Module FirestoreInit.
Section Init.
(** [W] is the world outside the process, [Handle] the client objects the
    Firestore library builds. *)
Context {W Handle : Type}.

(** [firestore.Client(project=...)]: it may touch the world, and raise. *)
Context (Client : option string → ST W Handle).

(** The process: the world, [os.environ], the class attribute
    [FirestoreClient._client_instance], and the arguments of the calls made
    to [firestore.Client] so far. *)
Record process := Process {
  world : W;
  environ : gmap string string;
  _client_instance : option Handle;
  client_calls : list (option string)
}.

(** A [FirestoreClient] object. *)
Record instance := Instance {
  project_id : option string;
  client : Handle;
  signals_collection : string;
  themes_collection : string
}.

Definition getenv (name : string) : ST process (option string) :=
  λ p, (Ok (environ p !! name), p).

Definition new_Client (project : option string) : ST process Handle :=
  λ p, let '(r, w) := Client project (world p) in
       (r, Process w (environ p) (_client_instance p) (client_calls p ++ [project])).

Definition set_client_instance (h : Handle) : ST process unit :=
  λ p, (Ok tt, Process (world p) (environ p) (Some h) (client_calls p)).

Definition get_client_instance : ST process (option Handle) :=
  λ p, (Ok (_client_instance p), p).

Definition __init__ : ST process instance :=
  project_id ← getenv "GCP_PROJECT_ID";
  current ← get_client_instance;
  client ← (match current with
            | None => h ← new_Client project_id; set_client_instance h;; mret h
            | Some h => mret h
            end);
  mret (Instance project_id client "overnight_signals" "market_themes").
End Init.
Arguments process : clear implicits.
Arguments instance : clear implicits.
End FirestoreInit.

(** ** The tools ([src/tools/overnight_signals.py]) *)

Module Tools.
Section Orchestrator.
Context {W : Type}.

(** A call to one of the two module-level clients, with its arguments. *)
Inductive call :=
  | FsGetOvernightSignals (date direction : string) (min_score limit : Z)
  | FsGetSignalDetail (ticker date : string)
  | FsGetMarketThemes (date : string)
  | BqGetOvernightSignals (date direction : string) (min_score limit : Z)
  | BqGetSignalDetail (ticker date : string)
  | BqGetMarketThemes (date : string)
  | BqGetTopMovers (count : Z).

(** [fs_client] and [bq_client]: what each method does when called.  The
    tools are written against these two objects only; the tests replace
    them by mocks. *)
Record clients := Clients {
  fs_get_overnight_signals : string → string → Z → Z → ST (W * heap) pyval;
  fs_get_signal_detail : string → string → ST (W * heap) pyval;
  fs_get_market_themes : string → ST (W * heap) pyval;
  bq_get_overnight_signals : string → string → Z → Z → ST (W * heap) pyval;
  bq_get_signal_detail : string → string → ST (W * heap) pyval;
  bq_get_market_themes : string → ST (W * heap) pyval;
  bq_get_top_movers : Z → ST (W * heap) pyval
}.

Definition dispatch (cl : clients) (c : call) : ST (W * heap) pyval :=
  match c with
  | FsGetOvernightSignals d dir ms lim => fs_get_overnight_signals cl d dir ms lim
  | FsGetSignalDetail t d => fs_get_signal_detail cl t d
  | FsGetMarketThemes d => fs_get_market_themes cl d
  | BqGetOvernightSignals d dir ms lim => bq_get_overnight_signals cl d dir ms lim
  | BqGetSignalDetail t d => bq_get_signal_detail cl t d
  | BqGetMarketThemes d => bq_get_market_themes cl d
  | BqGetTopMovers n => bq_get_top_movers cl n
  end.

(** One entry of the trace: the call, the heap as the client received it,
    what the call returned, and the heap as the client left it. *)
Record event := Event {
  ev_call : call;
  ev_before : heap;
  ev_result : result pyval;
  ev_heap : heap
}.

Record state := State {
  st_world : W;
  st_heap : heap;
  st_trace : list event;
  st_today : string  (* what [datetime.now().strftime("%Y-%m-%d")] gives *)
}.

Definition set_heap (h : heap) (s : state) : state :=
  State (st_world s) h (st_trace s) (st_today s).

Definition read_heap {A} (f : heap → result A) : ST state A :=
  λ s, (f (st_heap s), s).
Definition update_heap {A} (f : heap → result A * heap) : ST state A :=
  λ s, let '(r, h) := f (st_heap s) in (r, set_heap h s).

Definition py_get (v : pyval) (key : string) (dflt : pyval) : ST state pyval :=
  read_heap (λ h, heap_get h v key dflt).
Definition py_not (v : pyval) : ST state bool :=
  read_heap (λ h, Ok (negb (py_truthy h v))).
Definition py_len (v : pyval) : ST state Z :=
  read_heap (λ h, heap_len h v).
Definition py_iter (v : pyval) : ST state (list pyval) :=
  read_heap (λ h, heap_iter h v).
Definition py_copy (v : pyval) : ST state pyval :=
  update_heap (λ h, heap_copy h v).
Definition py_pop (v : pyval) (key : string) (dflt : pyval) : ST state pyval :=
  update_heap (λ h, heap_pop h v key dflt).
Definition py_setitem (v : pyval) (key : string) (x : pyval) : ST state unit :=
  update_heap (λ h, heap_setitem h v key x).
(** A dict display [{k1: v1, ...}] *)
Definition new_dict (items : list (string * pyval)) : ST state pyval :=
  update_heap (λ h, let '(l, h') := heap_alloc h (list_to_map items) in (Ok (PRef l), h')).
Definition now_strftime : ST state string :=
  λ s, (Ok (st_today s), s).

Context (cl : clients).

(** [await fs_client.m(...)] / [await bq_client.m(...)] *)
Definition invoke (c : call) : ST state pyval :=
  λ s, let '(r, (w, h)) := dispatch cl c (st_world s, st_heap s) in
       (r, State w h (st_trace s ++ [Event c (st_heap s) r h]) (st_today s)).

Definition _get_user_tier (kwargs : dict) : ST state pyval :=
  empty ← new_dict [];
  let user_info := default empty (kwargs !! "_user_info") in
  py_get user_info "tier" (PStr "FREE").

Definition premium_fields : list string :=
  [ "recommended_contract"; "recommended_strike"; "recommended_expiration";
    "recommended_mid_price"; "contract_score"; "technicals"; "news";
    "catalyst_summary"; "flow_details" ].

(** The body of the loop over [signals] for the FREE tier. *)
Definition strip_signal (sig : pyval) : ST state pyval :=
  s ← py_copy sig;
  for_each (λ field, py_pop s field PNone;; mret tt) premium_fields;;
  mret s.

Definition pricing_url : string := "https://gammarips.com/#pricing".

Definition upgrade_message (n : Z) : string :=
  "You're seeing " +:+ pretty n +:+
  " signals (score 7+ only). Unlock all signals, contracts, technicals & AI analysis.".

Definition get_overnight_signals
    (direction : string) (min_score limit : Z) (date : string) (kwargs : dict)
    : ST state pyval :=
  tier ← _get_user_tier kwargs;
  let '(min_score, limit) :=
    if py_eq_str tier "FREE" then (Z.max min_score 7, Z.min limit 10)
    else (min_score, limit) in
  query_date ← (if bool_decide (date = "latest") then now_strftime else mret date);
  signals ← invoke (FsGetOvernightSignals query_date direction min_score limit);
  empty ← py_not signals;
  '(signals, scan_date) ←
    (if empty : bool then
       bq_res ← invoke (BqGetOvernightSignals date direction min_score limit);
       signals ← py_get bq_res "signals" (PList []);
       scan_date ← py_get bq_res "scan_date" (PStr query_date);
       mret (signals, scan_date)
     else mret (signals, PStr query_date));
  signals ←
    (if py_eq_str tier "FREE" then
       items ← py_iter signals;
       filtered_signals ← for_append strip_signal items;
       mret (PList filtered_signals)
     else mret signals);
  total ← py_len signals;
  response ← new_dict [("scan_date", scan_date);
                       ("total_signals", PInt total);
                       ("signals", signals)];
  (if py_eq_str tier "FREE" then
     n ← py_len signals;
     plan1 ← new_dict [("name", PStr "The Overnight Edge");
                       ("price", PStr "$49/mo"); ("url", PStr pricing_url)];
     plan2 ← new_dict [("name", PStr "The War Room");
                       ("price", PStr "$149/mo"); ("url", PStr pricing_url)];
     upgrade ← new_dict [("message", PStr (upgrade_message n));
                         ("plans", PList [plan1; plan2])];
     py_setitem response "upgrade" upgrade
   else mret tt);;
  mret response.

Definition get_signal_detail (ticker date : string) (kwargs : dict) : ST state pyval :=
  tier ← _get_user_tier kwargs;
  if py_eq_str tier "FREE" then
    new_dict [("error", PStr "upgrade_required");
              ("message", PStr "Signal deep dives require The Overnight Edge ($49/mo)");
              ("url", PStr pricing_url)]
  else
    query_date ← (if bool_decide (date = "latest") then now_strftime else mret date);
    signal ← invoke (FsGetSignalDetail ticker query_date);
    absent ← py_not signal;
    signal ← (if absent : bool then invoke (BqGetSignalDetail ticker date)
              else mret signal);
    absent ← py_not signal;
    if absent : bool then
      new_dict [("error", PStr "Signal not found"); ("ticker", PStr ticker)]
    else mret signal.


(** The body of the loop over [themes] for the FREE tier. *)
Definition strip_theme (theme : pyval) : ST state pyval :=
  t ← py_copy theme;
  py_pop t "tickers" PNone;;
  mret t.

Definition get_market_themes (date : string) (kwargs : dict) : ST state pyval :=
  tier ← _get_user_tier kwargs;
  query_date ← (if bool_decide (date = "latest") then now_strftime else mret date);
  themes ← invoke (FsGetMarketThemes query_date);
  empty ← py_not themes;
  '(themes, scan_date) ←
    (if empty : bool then
       bq_res ← invoke (BqGetMarketThemes date);
       themes ← py_get bq_res "themes" (PList []);
       scan_date ← py_get bq_res "scan_date" (PStr query_date);
       mret (themes, scan_date)
     else mret (themes, PStr query_date));
  themes ←
    (if py_eq_str tier "FREE" then
       items ← py_iter themes;
       filtered_themes ← for_append strip_theme items;
       mret (PList filtered_themes)
     else mret themes);
  new_dict [("scan_date", scan_date); ("themes", themes)].
End Orchestrator.
Arguments clients : clear implicits.
Arguments state : clear implicits.

(** The module-level clients as the module builds them: [fs_client] is a
    [FirestoreClient] over the Firestore library; the methods of
    [bq_client] are those of [data/bigquery_client.py]. *)
Definition module_clients {W Doc : Type} (fs_client : FirestoreClient.firestore W Doc)
    (bq_signals : string → string → Z → Z → ST (W * heap) pyval)
    (bq_detail : string → string → ST (W * heap) pyval)
    (bq_themes : string → ST (W * heap) pyval)
    (bq_movers : Z → ST (W * heap) pyval) : clients W :=
  Clients (FirestoreClient.get_overnight_signals fs_client)
          (FirestoreClient.get_signal_detail fs_client)
          (FirestoreClient.get_market_themes fs_client)
          bq_signals bq_detail bq_themes bq_movers.
End Tools.

Import Tools.

(** * Specification vocabulary *)

(** What the inner loop of the FREE branch leaves of a dict. *)
Definition strip (fields : list string) (d : dict) : dict :=
  foldl (λ acc field, delete field acc) d fields.

(** The minimum score and the limit a signals query carries. *)
Definition score_limit_of (c : call) : option (Z * Z) :=
  match c with
  | FsGetOvernightSignals _ _ min_score limit
  | BqGetOvernightSignals _ _ min_score limit => Some (min_score, limit)
  | _ => None
  end.

(** Calls to [fs_client], as opposed to [bq_client]. *)
Definition is_primary (c : call) : bool :=
  match c with
  | FsGetOvernightSignals _ _ _ _ | FsGetSignalDetail _ _ | FsGetMarketThemes _ => true
  | _ => false
  end.

(** The records a client answered with: what [fs_client] returned, or the
    entry [key] of the mapping [bq_client] returned (default: the empty
    list). *)
Definition answer (key : string) (e : event) : result pyval :=
  if is_primary (ev_call e) then ev_result e
  else match ev_result e with
       | Ok bq_res => heap_get (ev_heap e) bq_res key (PList [])
       | Raise x => Raise x
       end.

(** The date the primary store is asked for. *)
Definition resolve_date (date today : string) : string :=
  if bool_decide (date = "latest") then today else date.

(** What the orchestrator reads out of the warehouse's answer [e]: the
    entry [key] (default: the empty list) and the entry ["scan_date"]
    (default: the date the primary store was asked for). *)
Definition fallback_payload (key query_date : string) (e : event)
    : result (pyval * pyval) :=
  match ev_result e with
  | Ok bq_res =>
      match heap_get (ev_heap e) bq_res key (PList []),
            heap_get (ev_heap e) bq_res "scan_date" (PStr query_date) with
      | Ok found, Ok scan_date => Ok (found, scan_date)
      | Raise x, _ | _, Raise x => Raise x
      end
  | Raise x => Raise x
  end.

(** Between the calls of a run the tool hands every object on unchanged:
    the heap [h] the run starts from is contained in the heap the first
    client receives, and the heap each client leaves is contained in the
    heap the next one receives. *)
Fixpoint hands_over (h : heap) (evs : list event) : Prop :=
  match evs with
  | [] => True
  | e :: rest => h ⊆ ev_before e ∧ hands_over (ev_heap e) rest
  end.

(** [out] is an object of [h'] that [h] does not have, it has none of
    [fields], and when [orig] is a dict of [h] it agrees with that dict on
    every other key. *)
Definition stripped_copy (fields : list string) (h h' : heap) (orig out : pyval) : Prop :=
  ∃ l' sd, out = PRef l' ∧ h !! l' = None ∧ h' !! l' = Some sd ∧
           (∀ f, f ∈ fields → sd !! f = None) ∧
           (∀ l d, orig = PRef l → h !! l = Some d →
                   ∀ k, k ∉ fields → sd !! k = d !! k).

(** The response [get_overnight_signals] builds from the records [fetched]
    found in heap [h]: a new dict [resp] of heap [h'].  For the FREE tier
    the records are replaced by stripped copies and an upgrade block is
    attached; otherwise the fetched value itself is served and nothing else
    is allocated. *)
Definition signals_response (tier fetched scan_date : pyval) (h h' : heap)
    (resp : pyval) : Prop :=
  ∃ l d, resp = PRef l ∧ h !! l = None ∧ h' !! l = Some d ∧
    if py_eq_str tier "FREE" then
      ∃ items outs u p1 p2,
        heap_iter h fetched = Ok items ∧
        Forall2 (stripped_copy premium_fields h h') items outs ∧
        d = <["upgrade" := PRef u]>
              (list_to_map [("scan_date", scan_date);
                            ("total_signals", PInt (Z.of_nat (length outs)));
                            ("signals", PList outs)]) ∧
        h' !! u
        = Some (list_to_map
                  [("message", PStr (upgrade_message (Z.of_nat (length outs))));
                   ("plans", PList [PRef p1; PRef p2])])
    else
      ∃ n, heap_len h fetched = Ok n ∧
        d = list_to_map [("scan_date", scan_date); ("total_signals", PInt n);
                         ("signals", fetched)] ∧
        h' = <[l := d]> h.

(** The response [get_market_themes] builds, likewise. *)
Definition themes_response (tier fetched scan_date : pyval) (h h' : heap)
    (resp : pyval) : Prop :=
  ∃ l d, resp = PRef l ∧ h !! l = None ∧ h' !! l = Some d ∧
    if py_eq_str tier "FREE" then
      ∃ items outs,
        heap_iter h fetched = Ok items ∧
        Forall2 (stripped_copy ["tickers"] h h') items outs ∧
        d = list_to_map [("scan_date", scan_date); ("themes", PList outs)]
    else
      d = list_to_map [("scan_date", scan_date); ("themes", fetched)] ∧
      h' = <[l := d]> h.

Section Vocabulary.
Context {W : Type}.
Implicit Types (s : state W).

(** A step that leaves the world, the trace and the clock alone and only
    allocates: every object of the old heap is in the new one, unchanged. *)
Definition allocates_only s s' : Prop :=
  st_world s' = st_world s ∧ st_trace s' = st_trace s ∧
  st_today s' = st_today s ∧ st_heap s ⊆ st_heap s'.

(** A client method that always answers with a non-empty list of dicts. *)
Definition answers_records (m : ST (W * heap) pyval) : Prop :=
  ∀ w h, ∃ items w' h',
    m (w, h) = (Ok (PList items), (w', h')) ∧ items ≠ [] ∧
    Forall (λ x, ∃ l, x = PRef l ∧ is_Some (h' !! l)) items.

(** [served c1 c2 key qd response s r s']: from state [s] the tool called
    [c1], and [c2] only when [c1] answered with a falsy value; it ended in
    [s'] with outcome [r]; objects were handed on unchanged from [s] to
    the clients, and the heap of the last client to answer is contained in
    the final heap; and an [Ok] outcome is a [response] to what that client
    answered. *)
Definition served (c1 c2 : call) (key qd : string)
    (response : pyval → pyval → heap → heap → pyval → Prop)
    s (r : result pyval) s' : Prop :=
  ∃ e1 evs elast,
    ev_call e1 = c1 ∧ st_trace s' = st_trace s ++ evs ∧
    last evs = Some elast ∧ ev_heap elast ⊆ st_heap s' ∧
    hands_over (st_heap s) evs ∧
    ((evs = [e1] ∧
      match ev_result e1 with
      | Raise x => r = Raise x
      | Ok v => py_truthy (ev_heap e1) v = true ∧
                ∀ resp, r = Ok resp →
                  response v (PStr qd) (ev_heap e1) (st_heap s') resp
      end)
     ∨ (∃ v e2, evs = [e1; e2] ∧ ev_result e1 = Ok v ∧
          py_truthy (ev_heap e1) v = false ∧ ev_call e2 = c2 ∧
          match fallback_payload key qd e2 with
          | Raise x => r = Raise x
          | Ok (found, scan_date) =>
              ∀ resp, r = Ok resp →
                response found scan_date (ev_heap e2) (st_heap s') resp
          end)).

(** *** The two halves of [get_overnight_signals] and [get_market_themes]

    Both tools query the primary client, fall back to the warehouse when
    the answer is falsy, then build the response.  The two halves are
    named here so that each can be analysed once; the tools are shown
    equal to their composition below. *)

Definition fetch (cl : clients W) (c1 c2 : call) (key query_date : string)
    : ST (state W) (pyval * pyval) :=
  found ← invoke cl c1;
  empty ← py_not found;
  if empty : bool then
    bq_res ← invoke cl c2;
    found ← py_get bq_res key (PList []);
    scan_date ← py_get bq_res "scan_date" (PStr query_date);
    mret (found, scan_date)
  else mret (found, PStr query_date).

Definition respond_signals (tier signals scan_date : pyval) : ST (state W) pyval :=
  signals ←
    (if py_eq_str tier "FREE" then
       items ← py_iter signals;
       filtered_signals ← for_append strip_signal items;
       mret (PList filtered_signals)
     else mret signals);
  total ← py_len signals;
  response ← new_dict [("scan_date", scan_date);
                       ("total_signals", PInt total);
                       ("signals", signals)];
  (if py_eq_str tier "FREE" then
     n ← py_len signals;
     plan1 ← new_dict [("name", PStr "The Overnight Edge");
                       ("price", PStr "$49/mo"); ("url", PStr pricing_url)];
     plan2 ← new_dict [("name", PStr "The War Room");
                       ("price", PStr "$149/mo"); ("url", PStr pricing_url)];
     upgrade ← new_dict [("message", PStr (upgrade_message n));
                         ("plans", PList [plan1; plan2])];
     py_setitem response "upgrade" upgrade
   else mret tt);;
  mret response.

Definition respond_themes (tier themes scan_date : pyval) : ST (state W) pyval :=
  themes ←
    (if py_eq_str tier "FREE" then
       items ← py_iter themes;
       filtered_themes ← for_append strip_theme items;
       mret (PList filtered_themes)
     else mret themes);
  new_dict [("scan_date", scan_date); ("themes", themes)].
End Vocabulary.

(** * Test doubles

    The objects and mocks of [tests/test_overnight_edge.py], and a
    warehouse double for the fallback path. *)

Module Fixture.
Definition signal_fsly : dict :=
  {[ "ticker" := PStr "FSLY"; "overnight_score" := PInt 9; "technicals" := PStr "secret" ]}.
Definition signal_aapl : dict :=
  {[ "ticker" := PStr "AAPL"; "overnight_score" := PInt 6; "technicals" := PStr "secret" ]}.
Definition theme_ai : dict :=
  {[ "name" := PStr "AI"; "tickers" := PList [PStr "NVDA"; PStr "AMD"] ]}.
Definition detail_fsly : dict :=
  {[ "ticker" := PStr "FSLY"; "data" := PStr "full" ]}.
Definition bq_signals : dict :=
  {[ "signals" := PList [PRef 1]; "scan_date" := PStr "2026-01-01" ]}.
Definition bq_themes : dict :=
  {[ "themes" := PList [PRef 5]; "scan_date" := PStr "2026-01-01" ]}.

Definition heap0 : heap :=
  list_to_map [(1%positive, signal_fsly); (2%positive, signal_aapl);
               (3%positive, {[ "tier" := PStr "FREE" ]});
               (4%positive, {[ "tier" := PStr "EDGE" ]});
               (5%positive, theme_ai); (6%positive, detail_fsly);
               (7%positive, bq_signals); (8%positive, bq_themes)].

Definition kwargs_free : dict := {[ "_user_info" := PRef 3 ]}.
Definition kwargs_edge : dict := {[ "_user_info" := PRef 4 ]}.

Definition s0 : state unit := State tt heap0 [] "2026-01-02".

Definition returns (v : pyval) : ST (unit * heap) pyval := mret v.
Definition unused : ST (unit * heap) pyval := st_raise (Exception "unused").

(** The primary store has the data. *)
Definition mock_hit : clients unit :=
  Clients (λ _ _ _ _, returns (PList [PRef 1; PRef 2]))
          (λ _ _, returns (PRef 6))
          (λ _, returns (PList [PRef 5]))
          (λ _ _ _ _, unused) (λ _ _, unused) (λ _, unused) (λ _, unused).

(** The primary store has nothing; the warehouse answers. *)
Definition mock_miss : clients unit :=
  Clients (λ _ _ _ _, returns (PList []))
          (λ _ _, returns PNone)
          (λ _, returns (PList []))
          (λ _ _ _ _, returns (PRef 7)) (λ _ _, returns PNone)
          (λ _, returns (PRef 8)) (λ _, unused).

(** The runs of the test file, and of the fallback path. *)
Definition free_signals_hit := get_overnight_signals mock_hit "ALL" 5 10 "latest" kwargs_free s0.
Definition free_signals_miss := get_overnight_signals mock_miss "ALL" 5 50 "latest" kwargs_free s0.
Definition free_themes_hit := get_market_themes mock_hit "latest" kwargs_free s0.

(** A Firestore library whose every query fails. *)
Definition firestore_down : FirestoreClient.firestore unit unit :=
  FirestoreClient.Firestore
    (λ _, st_raise (Exception "ServiceUnavailable"))
    (λ _, st_raise (Exception "ServiceUnavailable")).
End Fixture.

(** * More test doubles *)

Module Doubles.
(** User info that is not a mapping. *)
Definition kwargs_none_info : dict := {[ "_user_info" := PNone ]}.

(** The primary store raises. *)
Definition mock_primary_raises : clients unit :=
  Clients (λ _ _ _ _, st_raise (Exception "Unavailable"))
          (λ _ _, st_raise (Exception "Unavailable"))
          (λ _, st_raise (Exception "Unavailable"))
          (λ _ _ _ _, Fixture.unused) (λ _ _, Fixture.unused)
          (λ _, Fixture.unused) (λ _, Fixture.unused).

(** The primary store has nothing and the warehouse raises. *)
Definition mock_warehouse_raises : clients unit :=
  Clients (λ _ _ _ _, Fixture.returns (PList []))
          (λ _ _, Fixture.returns PNone)
          (λ _, Fixture.returns (PList []))
          (λ _ _ _ _, st_raise (Exception "BadRequest"))
          (λ _ _, st_raise (Exception "BadRequest"))
          (λ _, st_raise (Exception "BadRequest"))
          (λ _, st_raise (Exception "BadRequest")).

(** The primary store has nothing and the warehouse answers with a mapping
    that has neither records nor a scan date (object 3 of the heap). *)
Definition mock_warehouse_bare : clients unit :=
  Clients (λ _ _ _ _, Fixture.returns (PList []))
          (λ _ _, Fixture.returns PNone)
          (λ _, Fixture.returns (PList []))
          (λ _ _ _ _, Fixture.returns (PRef 3)) (λ _ _, Fixture.returns PNone)
          (λ _, Fixture.returns (PRef 3)) (λ _, Fixture.returns (PRef 3)).

(** The primary store has nothing and the warehouse answers [None]. *)
Definition mock_warehouse_none : clients unit :=
  Clients (λ _ _ _ _, Fixture.returns (PList []))
          (λ _ _, Fixture.returns PNone)
          (λ _, Fixture.returns (PList []))
          (λ _ _ _ _, Fixture.returns PNone) (λ _ _, Fixture.returns PNone)
          (λ _, Fixture.returns PNone) (λ _, Fixture.returns PNone).

(** The real primary client over a Firestore library that is down. *)
Definition outage : clients unit :=
  module_clients Fixture.firestore_down
    (λ _ _ _ _, Fixture.returns (PRef 7)) (λ _ _, Fixture.returns PNone)
    (λ _, Fixture.returns (PRef 8)) (λ _, Fixture.unused).

(** A Firestore library with documents [1] and [2], which read as the
    heap's objects 1 and 2. *)
Definition firestore_two : FirestoreClient.firestore unit positive :=
  FirestoreClient.Firestore
    (λ _, mret [1%positive; 2%positive])
    (λ doc, mret (PRef doc)).

(** One whose only document, 3, has no ["themes"] entry, and one whose
    documents read as [None]. *)
Definition firestore_bare : FirestoreClient.firestore unit positive :=
  FirestoreClient.Firestore (λ _, mret [3%positive]) (λ doc, mret (PRef doc)).
Definition firestore_absent : FirestoreClient.firestore unit positive :=
  FirestoreClient.Firestore (λ _, mret [3%positive]) (λ doc, mret PNone).
Definition firestore_empty : FirestoreClient.firestore unit positive :=
  FirestoreClient.Firestore (λ _, mret []) (λ doc, mret PNone).

(** A Firestore library interrupted from the keyboard. *)
Definition firestore_interrupted : FirestoreClient.firestore unit unit :=
  FirestoreClient.Firestore
    (λ _, st_raise (BaseOnly "KeyboardInterrupt"))
    (λ _, st_raise (BaseOnly "KeyboardInterrupt")).

(** [firestore.Client]: the handle is the number of clients built so far;
    building fails without a project. *)
Definition Client (project : option string) : ST nat nat :=
  λ n, match project with
       | Some _ => (Ok n, S n)
       | None => (Raise (Exception "DefaultCredentialsError"), n)
       end.

Definition fresh_process : FirestoreInit.process nat nat :=
  FirestoreInit.Process 0%nat {[ "GCP_PROJECT_ID" := "gammarips" ]} None [].
Definition unconfigured_process : FirestoreInit.process nat nat :=
  FirestoreInit.Process 0%nat ∅ None [].

(** Runs over these doubles, and the last call a run recorded. *)
Definition bare_signals :=
  get_overnight_signals mock_warehouse_bare "ALL" 5 20 "latest" Fixture.kwargs_edge Fixture.s0.
Definition none_signals :=
  get_overnight_signals mock_warehouse_none "ALL" 5 20 "latest" Fixture.kwargs_edge Fixture.s0.
Definition raising_signals :=
  get_overnight_signals mock_warehouse_raises "ALL" 5 20 "latest" Fixture.kwargs_edge
    Fixture.s0.

Definition last_event (s : state unit) : event :=
  default (Event (BqGetTopMovers 0) ∅ (Ok PNone) ∅) (last (st_trace s)).
End Doubles.

(** * Properties *)

(** ** Running the monad *)

Lemma bind_run {S A B} (m : ST S A) (f : A → ST S B) (s : S) :
  (m ≫= f) s = match m s with
               | (Ok a, s') => f a s'
               | (Raise e, s') => (Raise e, s')
               end.
Proof. reflexivity. Qed.

Lemma ret_run {S A} (a : A) (s : S) : (mret a : ST S A) s = (Ok a, s).
Proof. reflexivity. Qed.

(** ** The heap *)

Arguments heap_alloc : simpl never.

Lemma heap_alloc_spec (h : heap) (d : dict) :
  ∃ l, heap_alloc h d = (l, <[l := d]> h) ∧ h !! l = None.
Proof.
  exists (fresh (dom h)). split; [reflexivity|].
  apply not_elem_of_dom, is_fresh.
Qed.

Lemma strip_lookup_in (fields : list string) (d : dict) (k : string) :
  k ∈ fields → strip fields d !! k = None.
Proof.
  unfold strip. revert d. induction fields as [|f fs IH]; intros d Hin.
  - by apply elem_of_nil in Hin.
  - simpl. destruct (decide (k = f)) as [->|Hne].
    + clear. assert (Hd : delete f d !! f = None) by apply lookup_delete_eq.
      revert Hd. generalize (delete f d). induction fs as [|g gs IHg]; intros m Hm; simpl.
      * done.
      * apply IHg. destruct (decide (g = f)) as [->|?].
        -- apply lookup_delete_eq.
        -- by rewrite lookup_delete_ne.
    + apply IH. apply elem_of_cons in Hin as [?|?]; done.
Qed.

Lemma strip_lookup_notin (fields : list string) (d : dict) (k : string) :
  k ∉ fields → strip fields d !! k = d !! k.
Proof.
  unfold strip. revert d. induction fields as [|f fs IH]; intros d Hin; simpl.
  - done.
  - apply not_elem_of_cons in Hin as [Hne Hin].
    rewrite IH by done. by rewrite lookup_delete_ne.
Qed.

Section ToolFacts.
Context {W : Type} (cl : clients W).
Implicit Types (s : state W) (h : heap) (v : pyval) (d : dict).

Lemma allocates_only_refl s : allocates_only s s.
Proof. by repeat split. Qed.

Lemma allocates_only_trans s1 s2 s3 :
  allocates_only s1 s2 → allocates_only s2 s3 → allocates_only s1 s3.
Proof.
  intros (?&?&?&?) (?&?&?&?). repeat split; try congruence.
  by etrans.
Qed.

Lemma allocates_only_insert s l d :
  st_heap s !! l = None → allocates_only s (set_heap (<[l := d]> (st_heap s)) s).
Proof. intros Hl. repeat split. simpl. by apply insert_subseteq. Qed.

Lemma new_dict_run items s :
  ∃ l, new_dict items s = (Ok (PRef l), set_heap (<[l := list_to_map items]> (st_heap s)) s)
       ∧ st_heap s !! l = None.
Proof.
  unfold new_dict, update_heap.
  destruct (heap_alloc_spec (st_heap s) (list_to_map items)) as (l & -> & Hl).
  by exists l.
Qed.

Lemma _get_user_tier_allocates kwargs s r s' :
  _get_user_tier kwargs s = (r, s') → allocates_only s s'.
Proof.
  unfold _get_user_tier. rewrite bind_run.
  destruct (new_dict_run [] s) as (l & -> & Hl).
  unfold py_get, read_heap. intros [= _ <-].
  by apply allocates_only_insert.
Qed.

Lemma invoke_inv c s r s' :
  invoke cl c s = (r, s') →
  st_trace s' = st_trace s ++ [Event c (st_heap s) r (st_heap s')] ∧
  st_today s' = st_today s.
Proof.
  unfold invoke. destruct (dispatch cl c _) as [r1 [w1 h1]].
  by intros [= <- <-].
Qed.

(** The inner loop [for field in [...]: s.pop(field, None)] on a dict. *)
Lemma pop_fields_run fields l d s :
  st_heap s !! l = Some d →
  for_each (λ field, py_pop (PRef l) field PNone;; mret tt) fields s
  = (Ok tt, set_heap (<[l := strip fields d]> (st_heap s)) s).
Proof.
  revert d s. induction fields as [|f fs IH]; intros d s Hl.
  - simpl. rewrite ret_run. f_equal. destruct s; unfold set_heap; simpl in *.
    f_equal. by rewrite insert_id.
  - simpl. rewrite !bind_run. unfold py_pop at 1, update_heap. simpl. rewrite Hl.
    rewrite ret_run.
    rewrite (IH (delete f d)) by (simpl; apply lookup_insert_eq).
    unfold set_heap; simpl. by rewrite insert_insert_eq.
Qed.

Lemma set_heap_id s : set_heap (st_heap s) s = s.
Proof. by destruct s. Qed.

Lemma stripped_copy_mono fields h h1 h2 orig out :
  h1 ⊆ h2 → stripped_copy fields h h1 orig out → stripped_copy fields h h2 orig out.
Proof.
  intros Hsub (l' & sd & -> & ? & Hl' & ? & ?). exists l', sd.
  repeat split; try done. by eapply lookup_weaken.
Qed.

Lemma stripped_copy_anti fields h0 h h' orig out :
  h0 ⊆ h → stripped_copy fields h h' orig out → stripped_copy fields h0 h' orig out.
Proof.
  intros Hsub (l' & sd & -> & Hn & Hl' & Hf & Ho). exists l', sd.
  repeat split; try done.
  - destruct (h0 !! l') eqn:E; [|done]. eapply lookup_weaken in E; [|done]. congruence.
  - intros l d -> Hd. eapply Ho; [done|]. by eapply lookup_weaken.
Qed.

Lemma strip_signal_inv sig s r s' :
  strip_signal sig s = (r, s') →
  allocates_only s s' ∧
  (∀ v, r = Ok v → stripped_copy premium_fields (st_heap s) (st_heap s') sig v).
Proof.
  unfold strip_signal. rewrite bind_run. unfold py_copy, update_heap, heap_copy.
  destruct sig as [| | | |xs|l]; cbv beta iota;
    try (rewrite set_heap_id; intros [= <- <-]; split; [apply allocates_only_refl|done]).
  { rewrite set_heap_id. unfold premium_fields. simpl. rewrite !bind_run.
    unfold py_pop at 1, update_heap. simpl. rewrite set_heap_id.
    intros [= <- <-]. split; [apply allocates_only_refl|done]. }
  destruct (st_heap s !! l) as [d|] eqn:Hl; cbv beta iota;
    [|rewrite set_heap_id; intros [= <- <-]; split; [apply allocates_only_refl|done]].
  destruct (heap_alloc_spec (st_heap s) d) as (l' & -> & Hl').
  rewrite bind_run.
  rewrite (pop_fields_run premium_fields l' d) by (simpl; apply lookup_insert_eq).
  rewrite ret_run. intros [= <- <-]. unfold set_heap; simpl. rewrite insert_insert_eq.
  split.
  - repeat split. simpl. by apply insert_subseteq.
  - intros v [= <-]. exists l', (strip premium_fields d). repeat split; try done.
    + apply lookup_insert_eq.
    + intros f. apply strip_lookup_in.
    + intros l0 d0 [= <-] Hd0 k Hk. rewrite strip_lookup_notin by done. congruence.
Qed.

Lemma strip_signal_run l d s :
  st_heap s !! l = Some d →
  ∃ l', strip_signal (PRef l) s
        = (Ok (PRef l'), set_heap (<[l' := strip premium_fields d]> (st_heap s)) s)
        ∧ st_heap s !! l' = None.
Proof.
  intros Hl. unfold strip_signal. rewrite bind_run.
  unfold py_copy, update_heap, heap_copy. rewrite Hl.
  destruct (heap_alloc_spec (st_heap s) d) as (l' & -> & Hl').
  exists l'. split; [|done]. rewrite bind_run.
  rewrite (pop_fields_run premium_fields l' d) by (simpl; apply lookup_insert_eq).
  rewrite ret_run. unfold set_heap; simpl. by rewrite insert_insert_eq.
Qed.

Lemma strip_theme_inv theme s r s' :
  strip_theme theme s = (r, s') →
  allocates_only s s' ∧
  (∀ v, r = Ok v → stripped_copy ["tickers"] (st_heap s) (st_heap s') theme v).
Proof.
  unfold strip_theme. rewrite bind_run. unfold py_copy, update_heap, heap_copy.
  destruct theme as [| | | |xs|l]; cbv beta iota;
    try (rewrite set_heap_id; intros [= <- <-]; split; [apply allocates_only_refl|done]).
  { rewrite set_heap_id. rewrite !bind_run.
    unfold py_pop at 1, update_heap. simpl. rewrite set_heap_id.
    intros [= <- <-]. split; [apply allocates_only_refl|done]. }
  destruct (st_heap s !! l) as [d|] eqn:Hl; cbv beta iota;
    [|rewrite set_heap_id; intros [= <- <-]; split; [apply allocates_only_refl|done]].
  destruct (heap_alloc_spec (st_heap s) d) as (l' & -> & Hl').
  rewrite bind_run. unfold py_pop, update_heap, heap_pop. simpl.
  rewrite lookup_insert_eq. rewrite ret_run. intros [= <- <-].
  unfold set_heap; simpl. rewrite insert_insert_eq.
  split.
  - repeat split. simpl. by apply insert_subseteq.
  - intros v [= <-]. exists l', (delete "tickers" d). repeat split; try done.
    + apply lookup_insert_eq.
    + intros f ->%list_elem_of_singleton. apply lookup_delete_eq.
    + intros l0 d0 [= <-] Hd0 k Hk. rewrite lookup_delete_ne; [congruence|].
      intros <-. apply Hk. by left.
Qed.

Lemma strip_theme_run l d s :
  st_heap s !! l = Some d →
  ∃ l', strip_theme (PRef l) s
        = (Ok (PRef l'), set_heap (<[l' := delete "tickers" d]> (st_heap s)) s)
        ∧ st_heap s !! l' = None.
Proof.
  intros Hl. unfold strip_theme. rewrite bind_run.
  unfold py_copy, update_heap, heap_copy. rewrite Hl.
  destruct (heap_alloc_spec (st_heap s) d) as (l' & -> & Hl').
  exists l'. split; [|done]. rewrite bind_run.
  unfold py_pop, update_heap, heap_pop. simpl.
  rewrite lookup_insert_eq. rewrite ret_run.
  unfold set_heap; simpl. by rewrite insert_insert_eq.
Qed.

(** The loop over the fetched records, for any body that makes stripped
    copies. *)
Lemma for_append_stripped fields (body : pyval → ST (state W) pyval) :
  (∀ x s r s', body x s = (r, s') →
     allocates_only s s' ∧
     (∀ v, r = Ok v → stripped_copy fields (st_heap s) (st_heap s') x v)) →
  ∀ items s r s', for_append body items s = (r, s') →
     allocates_only s s' ∧
     (∀ outs, r = Ok outs →
        Forall2 (stripped_copy fields (st_heap s) (st_heap s')) items outs).
Proof.
  intros Hbody items. induction items as [|x xs IH]; intros s r s'.
  - simpl. rewrite ret_run. intros [= <- <-]. split; [apply allocates_only_refl|].
    intros outs [= <-]. constructor.
  - simpl. rewrite bind_run. destruct (body x s) as [[y|e] s1] eqn:Hx.
    + destruct (Hbody _ _ _ _ Hx) as [Ha1 Hy]. specialize (Hy y eq_refl).
      rewrite bind_run. destruct (for_append body xs s1) as [[ys|e] s2] eqn:Hxs.
      * destruct (IH _ _ _ Hxs) as [Ha2 Hys]. specialize (Hys ys eq_refl).
        rewrite ret_run. intros [= <- <-]. split; [by eapply allocates_only_trans|].
        intros outs [= <-]. constructor.
        -- eapply stripped_copy_mono; [apply Ha2|done].
        -- eapply Forall2_impl; [done|]. intros a b Hab.
           eapply stripped_copy_anti; [apply Ha1|done].
      * destruct (IH _ _ _ Hxs) as [Ha2 _]. intros [= <- <-].
        split; [by eapply allocates_only_trans|done].
    + intros [= <- <-]. destruct (Hbody _ _ _ _ Hx) as [Ha1 _]. done.
Qed.

(** The loop returns when every fetched record is a dict. *)
Lemma for_append_total (body : pyval → ST (state W) pyval) :
  (∀ l s, is_Some (st_heap s !! l) →
     ∃ v s', body (PRef l) s = (Ok v, s') ∧ allocates_only s s') →
  ∀ items s,
    Forall (λ x, ∃ l, x = PRef l ∧ is_Some (st_heap s !! l)) items →
    ∃ outs s', for_append body items s = (Ok outs, s').
Proof.
  intros Hbody items. induction items as [|x xs IH]; intros s Hall.
  - eexists _, _. reflexivity.
  - apply Forall_cons in Hall as [(l & -> & Hl) Hxs].
    destruct (Hbody l s Hl) as (y & s1 & Hy & Ha).
    destruct (IH s1) as (ys & s2 & Hys).
    { eapply Forall_impl; [done|]. intros v (l0 & -> & [d Hd]). exists l0.
      split; [done|]. exists d. eapply lookup_weaken; [done|apply Ha]. }
    exists (y :: ys), s2. simpl. rewrite bind_run, Hy, bind_run, Hys. reflexivity.
Qed.

Lemma py_get_run v key dflt s : py_get v key dflt s = (heap_get (st_heap s) v key dflt, s).
Proof. reflexivity. Qed.
Lemma py_not_run v s : py_not v s = (Ok (negb (py_truthy (st_heap s) v)), s).
Proof. reflexivity. Qed.
Lemma py_len_run v s : py_len v s = (heap_len (st_heap s) v, s).
Proof. reflexivity. Qed.
Lemma py_iter_run v s : py_iter v s = (heap_iter (st_heap s) v, s).
Proof. reflexivity. Qed.

(** One step of symbolic execution: expose the next operation and split
    on its outcome. *)
Ltac mstep :=
  rewrite ?bind_run, ?ret_run, ?py_not_run, ?py_get_run, ?py_len_run, ?py_iter_run;
  match goal with
  | |- context [invoke ?c ?k ?s] => destruct (invoke c k s) as [[?|?] ?]
  | |- context [match heap_get ?h ?v ?k ?d with _ => _ end] =>
      destruct (heap_get h v k d)
  | |- context [negb (py_truthy ?h ?v)] => destruct (py_truthy h v); cbv [negb]
  end.

(** *** Fetching *)

Lemma fetch_inv c1 c2 key qd s r s' :
  fetch cl c1 c2 key qd s = (r, s') →
  st_today s' = st_today s ∧
  ∃ e1, ev_call e1 = c1 ∧ ev_before e1 = st_heap s ∧
    ((st_trace s' = st_trace s ++ [e1] ∧ st_heap s' = ev_heap e1 ∧
      match ev_result e1 with
      | Ok v => py_truthy (ev_heap e1) v = true ∧ r = Ok (v, PStr qd)
      | Raise x => r = Raise x
      end)
     ∨ (∃ v e2, ev_result e1 = Ok v ∧ py_truthy (ev_heap e1) v = false ∧
          ev_call e2 = c2 ∧ ev_before e2 = ev_heap e1 ∧
          st_trace s' = st_trace s ++ [e1; e2] ∧
          st_heap s' = ev_heap e2 ∧ r = fallback_payload key qd e2)).
Proof.
  unfold fetch. rewrite bind_run. unfold invoke at 1.
  destruct (dispatch cl c1 (st_world s, st_heap s)) as [r1 [w1 h1]] eqn:Hd1.
  destruct r1 as [v|x].
  - rewrite bind_run, py_not_run; simpl.
    destruct (py_truthy h1 v) eqn:Ht; simpl.
    + rewrite ret_run. intros [= <- <-]. split; [done|].
      exists (Event c1 (st_heap s) (Ok v) h1). repeat split. left. by repeat split.
    + rewrite bind_run. unfold invoke at 1. simpl.
      destruct (dispatch cl c2 (w1, h1)) as [r2 [w2 h2]] eqn:Hd2.
      intros Hrun.
      assert (Hfin : st_today s' = st_today s ∧
                     st_trace s' = st_trace s ++ [Event c1 (st_heap s) (Ok v) h1;
                                                  Event c2 h1 r2 h2] ∧
                     st_heap s' = h2 ∧
                     r = fallback_payload key qd (Event c2 h1 r2 h2)).
      { revert Hrun. unfold fallback_payload; simpl.
        rewrite <- app_assoc; simpl.
        destruct r2 as [b|x]; [|by intros [= <- <-]].
        rewrite bind_run, py_get_run; simpl.
        destruct (heap_get h2 b key (PList [])) as [f|x]; [|by intros [= <- <-]].
        rewrite bind_run, py_get_run; simpl.
        destruct (heap_get h2 b "scan_date" (PStr qd)) as [d|x]; by intros [= <- <-]. }
      destruct Hfin as (? & ? & ? & ?). split; [done|].
      exists (Event c1 (st_heap s) (Ok v) h1). repeat split. right.
      by exists v, (Event c2 h1 r2 h2).
  - intros [= <- <-]. split; [done|].
    exists (Event c1 (st_heap s) (Raise x) h1). repeat split. left. by repeat split.
Qed.

Lemma get_overnight_signals_split direction min_score limit date kwargs s :
  get_overnight_signals cl direction min_score limit date kwargs s =
  (tier ← _get_user_tier kwargs;
   let free := py_eq_str tier "FREE" in
   let min_score' := if free then Z.max min_score 7 else min_score in
   let limit' := if free then Z.min limit 10 else limit in
   let query_date := resolve_date date (st_today s) in
   '(signals, scan_date) ←
      fetch cl (FsGetOvernightSignals query_date direction min_score' limit')
            (BqGetOvernightSignals date direction min_score' limit')
            "signals" query_date;
   respond_signals tier signals scan_date) s.
Proof.
  unfold get_overnight_signals. rewrite !(bind_run (_get_user_tier kwargs)).
  destruct (_get_user_tier kwargs s) as [[tier|x] s0] eqn:Ht; [|done].
  apply _get_user_tier_allocates in Ht as (_ & _ & Htoday & _).
  cbv zeta. unfold resolve_date, fetch, respond_signals. rewrite <- Htoday.
  destruct (py_eq_str tier "FREE"); cbv beta iota;
    (rewrite bind_run;
     destruct (bool_decide (date = "latest")); unfold now_strftime; rewrite ?ret_run;
     repeat (mstep; try done)).
Qed.

Lemma respond_signals_inv tier signals sd s r s' :
  respond_signals tier signals sd s = (r, s') →
  allocates_only s s' ∧
  ∀ resp, r = Ok resp →
    signals_response tier signals sd (st_heap s) (st_heap s') resp.
Proof.
  unfold respond_signals, signals_response. destruct (py_eq_str tier "FREE").
  - rewrite !bind_run, py_iter_run.
    destruct (heap_iter (st_heap s) signals) as [items|x] eqn:Hit;
      [|intros [= <- <-]; split; [apply allocates_only_refl|done]].
    rewrite bind_run.
    destruct (for_append strip_signal items s) as [[outs|x] sa] eqn:Hfa;
      destruct (for_append_stripped premium_fields strip_signal strip_signal_inv
                  _ _ _ _ Hfa) as [Ha Hout];
      [|intros [= <- <-]; split; done].
    specialize (Hout outs eq_refl).
    rewrite ret_run, bind_run, py_len_run. cbn [heap_len].
    rewrite bind_run.
    match goal with |- context [new_dict ?i sa] =>
      destruct (new_dict_run i sa) as (l & -> & Hl) end.
    rewrite !bind_run, py_len_run. cbn [heap_len].
    rewrite bind_run.
    set (d0 := list_to_map [("scan_date", sd); _; _]) in *.
    do 3 (match goal with |- context [new_dict ?i ?st] =>
            let p := fresh "p" in let Hp := fresh "Hp" in
            destruct (new_dict_run i st) as (p & -> & Hp); cbn [st_heap set_heap] in Hp
          end; rewrite ?bind_run).
    unfold py_setitem, update_heap, heap_setitem. cbn [st_heap set_heap].
    apply lookup_insert_None in Hp as [Hp Hlp].
    apply lookup_insert_None in Hp0 as [Hp0 Hpp0]. apply lookup_insert_None in Hp0 as [Hp0 Hlp0].
    apply lookup_insert_None in Hp1 as [Hp1 Hp0p1]. apply lookup_insert_None in Hp1 as [Hp1 Hpp1].
    apply lookup_insert_None in Hp1 as [Hp1 Hlp1].
    rewrite !lookup_insert_ne, lookup_insert_eq by done.
    rewrite ret_run. intros [= <- <-]. cbn [st_heap set_heap].
    assert (Hsub : st_heap sa ⊆ <[l:=<["upgrade":=PRef p1]> d0]>
              (<[p1:=list_to_map [("message", PStr (upgrade_message (Z.of_nat (length outs))));
                                  ("plans", PList [PRef p; PRef p0])]]>
                 (<[p0:=list_to_map [("name", PStr "The War Room"); ("price", PStr "$149/mo");
                                     ("url", PStr pricing_url)]]>
                    (<[p:=list_to_map [("name", PStr "The Overnight Edge");
                                       ("price", PStr "$49/mo"); ("url", PStr pricing_url)]]>
                       (<[l:=d0]> (st_heap sa)))))).
    { apply insert_subseteq_r; [done|].
      do 3 (apply insert_subseteq_r; [done|]). by apply insert_subseteq. }
    split.
    + eapply allocates_only_trans; [done|]. by repeat split.
    + intros resp [= <-]. exists l, (<["upgrade":=PRef p1]> d0).
      split; [done|]. split.
      { destruct (st_heap s !! l) eqn:E; [|done].
        eapply lookup_weaken in E; [|apply Ha]. congruence. }
      split; [apply lookup_insert_eq|].
      exists items, outs, p1, p, p0. split; [done|]. split.
      { eapply Forall2_impl; [done|]. intros a b. by apply stripped_copy_mono. }
      split; [done|].
      rewrite lookup_insert_ne by done. apply lookup_insert_eq.
  - rewrite bind_run, ret_run, bind_run, py_len_run.
    destruct (heap_len (st_heap s) signals) as [n|x] eqn:Hlen;
      [|intros [= <- <-]; split; [apply allocates_only_refl|done]].
    rewrite bind_run.
    match goal with |- context [new_dict ?i ?st] =>
      destruct (new_dict_run i st) as (l & -> & Hl) end.
    rewrite bind_run, !ret_run. intros [= <- <-]. split.
    + by apply allocates_only_insert.
    + intros resp [= <-]. eexists l, _. split; [done|]. split; [done|].
      split; [apply lookup_insert_eq|]. by exists n.
Qed.

Lemma get_market_themes_split date kwargs s :
  get_market_themes cl date kwargs s =
  (tier ← _get_user_tier kwargs;
   let query_date := resolve_date date (st_today s) in
   '(themes, scan_date) ←
      fetch cl (FsGetMarketThemes query_date) (BqGetMarketThemes date) "themes" query_date;
   respond_themes tier themes scan_date) s.
Proof.
  unfold get_market_themes. rewrite !(bind_run (_get_user_tier kwargs)).
  destruct (_get_user_tier kwargs s) as [[tier|x] s0] eqn:Ht; [|done].
  apply _get_user_tier_allocates in Ht as (_ & _ & Htoday & _).
  cbv zeta. unfold resolve_date, fetch, respond_themes. rewrite <- Htoday.
  rewrite bind_run.
  destruct (bool_decide (date = "latest")); unfold now_strftime; rewrite ?ret_run;
    repeat (mstep; try done).
Qed.

Lemma respond_themes_inv tier themes sd s r s' :
  respond_themes tier themes sd s = (r, s') →
  allocates_only s s' ∧
  ∀ resp, r = Ok resp →
    themes_response tier themes sd (st_heap s) (st_heap s') resp.
Proof.
  unfold respond_themes, themes_response. destruct (py_eq_str tier "FREE").
  - rewrite !bind_run, py_iter_run.
    destruct (heap_iter (st_heap s) themes) as [items|x] eqn:Hit;
      [|intros [= <- <-]; split; [apply allocates_only_refl|done]].
    rewrite bind_run.
    destruct (for_append strip_theme items s) as [[outs|x] sa] eqn:Hfa;
      destruct (for_append_stripped ["tickers"] strip_theme strip_theme_inv
                  _ _ _ _ Hfa) as [Ha Hout];
      [|intros [= <- <-]; split; done].
    specialize (Hout outs eq_refl). rewrite ret_run.
    match goal with |- context [new_dict ?i ?st] =>
      destruct (new_dict_run i st) as (l & -> & Hl) end.
    intros [= <- <-]. cbn [st_heap set_heap]. split.
    + eapply allocates_only_trans; [done|]. by apply allocates_only_insert.
    + intros resp [= <-]. eexists l, _. split; [done|]. split.
      { destruct (st_heap s !! l) eqn:E; [|done].
        eapply lookup_weaken in E; [|apply Ha]. congruence. }
      split; [apply lookup_insert_eq|].
      exists items, outs. split; [done|]. split; [|done].
      eapply Forall2_impl; [done|]. intros a b. apply stripped_copy_mono.
      by apply insert_subseteq.
  - rewrite bind_run, ret_run.
    match goal with |- context [new_dict ?i ?st] =>
      destruct (new_dict_run i st) as (l & -> & Hl) end.
    intros [= <- <-]. split.
    + by apply allocates_only_insert.
    + intros resp [= <-]. eexists l, _. split; [done|]. split; [done|].
      split; [apply lookup_insert_eq|]. done.
Qed.

(** *** Tier resolution *)

Lemma _get_user_tier_run kwargs s :
  ∃ l, st_heap s !! l = None ∧
       _get_user_tier kwargs s
       = (heap_get (<[l := ∅]> (st_heap s)) (default (PRef l) (kwargs !! "_user_info"))
                   "tier" (PStr "FREE"),
          set_heap (<[l := ∅]> (st_heap s)) s).
Proof.
  unfold _get_user_tier. rewrite bind_run.
  destruct (new_dict_run [] s) as (l & -> & Hl). exists l. split; [done|].
  by rewrite py_get_run.
Qed.


(** *** The whole run of a fetch-then-respond tool *)

Lemma hands_over_weaken h h0 (evs : list event) :
  h ⊆ h0 → hands_over h0 evs → hands_over h evs.
Proof. destruct evs as [|e rest]; [done|]. intros ? [? ?]. split; [by etrans|done]. Qed.

Lemma fetch_respond_inv c1 c2 key qd (respond : pyval → pyval → ST (state W) pyval)
    (response : pyval → pyval → heap → heap → pyval → Prop) s r s' :
  (∀ f sd s r s', respond f sd s = (r, s') →
     allocates_only s s' ∧
     ∀ resp, r = Ok resp → response f sd (st_heap s) (st_heap s') resp) →
  (fetch cl c1 c2 key qd ≫= λ '(f, sd), respond f sd) s = (r, s') →
  served c1 c2 key qd response s r s'.
Proof.
  intros Hresp. rewrite bind_run.
  destruct (fetch cl c1 c2 key qd s) as [rf s1] eqn:Hf.
  apply fetch_inv in Hf as (_ & e1 & Hc1 & Hb1 & Hcases).
  destruct Hcases
    as [(Htr & Hh & Hr1)|(v & e2 & Hr1 & Hfalsy & Hc2 & Hb2 & Htr & Hh & Hrf)].
  - assert (Hho : hands_over (st_heap s) [e1]) by (simpl; by rewrite Hb1).
    destruct (ev_result e1) as [v|x] eqn:He1.
    + destruct Hr1 as [Ht ->]. intros Hrun.
      destruct (Hresp _ _ _ _ _ Hrun) as [(_ & Htr' & _ & Hsub) Hok].
      rewrite Hh in Hsub, Hok.
      exists e1, [e1], e1. rewrite Htr', Htr. do 4 (split; [done|]).
      split; [exact Hho|]. left. split; [done|]. rewrite He1. by split.
    + subst rf. intros [= <- <-]. exists e1, [e1], e1. rewrite Htr, Hh.
      do 4 (split; [done|]). split; [exact Hho|]. left. by rewrite He1.
  - assert (Hho : hands_over (st_heap s) [e1; e2])
      by (simpl; by rewrite Hb1, Hb2).
    subst rf. destruct (fallback_payload key qd e2) as [[f sd]|x] eqn:Hp.
    + intros Hrun. destruct (Hresp _ _ _ _ _ Hrun) as [(_ & Htr' & _ & Hsub) Hok].
      rewrite Hh in Hsub, Hok.
      exists e1, [e1; e2], e2. rewrite Htr', Htr. do 4 (split; [done|]).
      split; [exact Hho|]. right. exists v, e2. do 4 (split; [done|]). by rewrite Hp.
    + intros [= <- <-]. exists e1, [e1; e2], e2. rewrite Htr, Hh.
      do 4 (split; [done|]). split; [exact Hho|].
      right. exists v, e2. do 4 (split; [done|]). by rewrite Hp.
Qed.

Lemma get_overnight_signals_inv direction min_score limit date kwargs s tier r s' :
  (_get_user_tier kwargs s).1 = Ok tier →
  get_overnight_signals cl direction min_score limit date kwargs s = (r, s') →
  let free := py_eq_str tier "FREE" in
  let min_score' := if free then Z.max min_score 7 else min_score in
  let limit' := if free then Z.min limit 10 else limit in
  let query_date := resolve_date date (st_today s) in
  served (FsGetOvernightSignals query_date direction min_score' limit')
         (BqGetOvernightSignals date direction min_score' limit')
         "signals" query_date (signals_response tier) s r s'.
Proof.
  intros Htier. rewrite get_overnight_signals_split, bind_run.
  destruct (_get_user_tier kwargs s) as [rt s0] eqn:Ht0. simpl in Htier. subst rt.
  apply _get_user_tier_allocates in Ht0 as (_ & Htr & _ & Hsub0).
  cbv zeta. intros Hrun.
  apply (fetch_respond_inv _ _ _ _ (respond_signals tier) (signals_response tier))
    in Hrun; [|apply respond_signals_inv].
  destruct Hrun as (e1 & evs & elast & Hc1 & Htr' & Hlast & Hsub & Hho & Hcases).
  exists e1, evs, elast. rewrite <- Htr. do 4 (split; [done|]).
  split; [by eapply hands_over_weaken|done].
Qed.

Lemma get_market_themes_inv date kwargs s tier r s' :
  (_get_user_tier kwargs s).1 = Ok tier →
  get_market_themes cl date kwargs s = (r, s') →
  let query_date := resolve_date date (st_today s) in
  served (FsGetMarketThemes query_date) (BqGetMarketThemes date)
         "themes" query_date (themes_response tier) s r s'.
Proof.
  intros Htier. rewrite get_market_themes_split, bind_run.
  destruct (_get_user_tier kwargs s) as [rt s0] eqn:Ht0. simpl in Htier. subst rt.
  apply _get_user_tier_allocates in Ht0 as (_ & Htr & _ & Hsub0).
  cbv zeta. intros Hrun.
  apply (fetch_respond_inv _ _ _ _ (respond_themes tier) (themes_response tier))
    in Hrun; [|apply respond_themes_inv].
  destruct Hrun as (e1 & evs & elast & Hc1 & Htr' & Hlast & Hsub & Hho & Hcases).
  exists e1, evs, elast. rewrite <- Htr. do 4 (split; [done|]).
  split; [by eapply hands_over_weaken|done].
Qed.

(** *** [get_signal_detail] *)

Lemma get_signal_detail_denied ticker date kwargs s tier :
  (_get_user_tier kwargs s).1 = Ok tier →
  py_eq_str tier "FREE" = true →
  ∃ l s',
    get_signal_detail cl ticker date kwargs s = (Ok (PRef l), s') ∧
    allocates_only s s' ∧ st_heap s !! l = None ∧
    st_heap s' !! l
    = Some (list_to_map
              [("error", PStr "upgrade_required");
               ("message", PStr "Signal deep dives require The Overnight Edge ($49/mo)");
               ("url", PStr pricing_url)]).
Proof.
  intros Htier Hfree. unfold get_signal_detail. rewrite bind_run.
  destruct (_get_user_tier kwargs s) as [rt s0] eqn:Ht0. simpl in Htier. subst rt.
  apply _get_user_tier_allocates in Ht0 as Ha0. rewrite Hfree.
  match goal with |- context [new_dict ?i ?st] =>
    destruct (new_dict_run i st) as (l & -> & Hl) end.
  eexists l, _. split; [reflexivity|]. split; [|split].
  - eapply allocates_only_trans; [done|]. by apply allocates_only_insert.
  - destruct (st_heap s !! l) eqn:E; [|done].
    eapply lookup_weaken in E; [|apply Ha0]. congruence.
  - apply lookup_insert_eq.
Qed.

Lemma get_signal_detail_inv ticker date kwargs s tier r s' :
  (_get_user_tier kwargs s).1 = Ok tier →
  py_eq_str tier "FREE" = false →
  get_signal_detail cl ticker date kwargs s = (r, s') →
  ∃ e1, ev_call e1 = FsGetSignalDetail ticker (resolve_date date (st_today s)) ∧
    match ev_result e1 with
    | Raise x => r = Raise x ∧ st_trace s' = st_trace s ++ [e1] ∧ st_heap s' = ev_heap e1
    | Ok v1 =>
        if py_truthy (ev_heap e1) v1 then
          r = Ok v1 ∧ st_trace s' = st_trace s ++ [e1] ∧ st_heap s' = ev_heap e1
        else
          ∃ e2, ev_call e2 = BqGetSignalDetail ticker date ∧
            st_trace s' = st_trace s ++ [e1; e2] ∧
            match ev_result e2 with
            | Raise x => r = Raise x ∧ st_heap s' = ev_heap e2
            | Ok v2 =>
                if py_truthy (ev_heap e2) v2 then r = Ok v2 ∧ st_heap s' = ev_heap e2
                else ∃ l, r = Ok (PRef l) ∧ ev_heap e2 !! l = None ∧
                       st_heap s'
                       = <[l := list_to_map [("error", PStr "Signal not found");
                                             ("ticker", PStr ticker)]]> (ev_heap e2)
            end
    end.
Proof.
  intros Htier Hfree. unfold get_signal_detail. rewrite bind_run.
  destruct (_get_user_tier kwargs s) as [rt s0] eqn:Ht0. simpl in Htier. subst rt.
  apply _get_user_tier_allocates in Ht0 as (_ & Htr & Htd & _). rewrite Hfree.
  rewrite bind_run.
  assert (Hqd : (if bool_decide (date = "latest") then now_strftime else mret date) s0
                = (Ok (resolve_date date (st_today s)), s0)).
  { unfold resolve_date. rewrite <- Htd. by destruct (bool_decide _). }
  rewrite Hqd. clear Hqd. rewrite bind_run.
  destruct (invoke cl (FsGetSignalDetail ticker (resolve_date date (st_today s))) s0)
    as [r1 s1] eqn:Hi1.
  apply invoke_inv in Hi1 as [Htr1 _]. rewrite Htr in Htr1.
  intros Hrun.
  exists (Event (FsGetSignalDetail ticker (resolve_date date (st_today s)))
            (st_heap s0) r1 (st_heap s1)).
  split; [done|]. cbn [ev_result ev_heap]. revert Hrun.
  destruct r1 as [v1|x]; [|by intros [= <- <-]].
  rewrite bind_run, py_not_run. cbn [st_heap].
  destruct (py_truthy (st_heap s1) v1) eqn:Ht1; cbv [negb].
  - rewrite bind_run, ret_run, bind_run, py_not_run, Ht1. cbv [negb].
    rewrite ret_run. by intros [= <- <-].
  - rewrite bind_run.
    destruct (invoke cl (BqGetSignalDetail ticker date) s1) as [r2 s2] eqn:Hi2.
    apply invoke_inv in Hi2 as [Htr2 _]. rewrite Htr1, <- app_assoc in Htr2.
    intros Hrun.
    exists (Event (BqGetSignalDetail ticker date) (st_heap s1) r2 (st_heap s2)).
    split; [done|]. cbn [ev_result ev_heap]. revert Hrun.
    destruct r2 as [v2|x]; [|by intros [= <- <-]].
    rewrite bind_run, py_not_run.
    destruct (py_truthy (st_heap s2) v2) eqn:Ht2; cbv [negb].
    + rewrite ret_run. by intros [= <- <-].
    + match goal with |- context [new_dict ?i ?st] =>
        destruct (new_dict_run i st) as (l & -> & Hl) end.
      intros [= <- <-]. split; [done|]. by exists l.
Qed.

(** *** The tools return when the primary store answers with records *)

Lemma respond_signals_returns tier items sd s :
  Forall (λ x, ∃ l, x = PRef l ∧ is_Some (st_heap s !! l)) items →
  ∃ resp s', respond_signals tier (PList items) sd s = (Ok resp, s').
Proof.
  intros Hall. unfold respond_signals. destruct (py_eq_str tier "FREE").
  - rewrite !bind_run, py_iter_run. cbn [heap_iter]. rewrite bind_run.
    destruct (for_append_total strip_signal) with (items := items) (s := s)
      as (outs & sa & ->); [|done|].
    { intros l s1 [d Hd]. destruct (strip_signal_run l d s1 Hd) as (l' & -> & Hl').
      eexists _, _. split; [done|]. by apply allocates_only_insert. }
    rewrite ret_run, bind_run, py_len_run. cbn [heap_len]. rewrite bind_run.
    match goal with |- context [new_dict ?i sa] =>
      destruct (new_dict_run i sa) as (l & -> & Hl) end.
    rewrite !bind_run, py_len_run. cbn [heap_len]. rewrite bind_run.
    do 3 (match goal with |- context [new_dict ?i ?st] =>
            let p := fresh "p" in let Hp := fresh "Hp" in
            destruct (new_dict_run i st) as (p & -> & Hp); cbn [st_heap set_heap] in Hp
          end; rewrite ?bind_run).
    unfold py_setitem, update_heap, heap_setitem. cbn [st_heap set_heap].
    apply lookup_insert_None in Hp as [Hp Hlp].
    apply lookup_insert_None in Hp0 as [Hp0 Hpp0]. apply lookup_insert_None in Hp0 as [Hp0 Hlp0].
    apply lookup_insert_None in Hp1 as [Hp1 Hp0p1]. apply lookup_insert_None in Hp1 as [Hp1 Hpp1].
    apply lookup_insert_None in Hp1 as [Hp1 Hlp1].
    rewrite !lookup_insert_ne, lookup_insert_eq by done.
    rewrite ret_run. by eexists _, _.
  - rewrite bind_run, ret_run, bind_run, py_len_run. cbn [heap_len]. rewrite bind_run.
    match goal with |- context [new_dict ?i ?st] =>
      destruct (new_dict_run i st) as (l & -> & Hl) end.
    rewrite bind_run, !ret_run. by eexists _, _.
Qed.

Lemma respond_themes_returns tier items sd s :
  Forall (λ x, ∃ l, x = PRef l ∧ is_Some (st_heap s !! l)) items →
  ∃ resp s', respond_themes tier (PList items) sd s = (Ok resp, s').
Proof.
  intros Hall. unfold respond_themes. destruct (py_eq_str tier "FREE").
  - rewrite !bind_run, py_iter_run. cbn [heap_iter]. rewrite bind_run.
    destruct (for_append_total strip_theme) with (items := items) (s := s)
      as (outs & sa & ->); [|done|].
    { intros l s1 [d Hd]. destruct (strip_theme_run l d s1 Hd) as (l' & -> & Hl').
      eexists _, _. split; [done|]. by apply allocates_only_insert. }
    rewrite ret_run.
    match goal with |- context [new_dict ?i ?st] =>
      destruct (new_dict_run i st) as (l & -> & Hl) end.
    by eexists _, _.
  - rewrite bind_run, ret_run.
    match goal with |- context [new_dict ?i ?st] =>
      destruct (new_dict_run i st) as (l & -> & Hl) end.
    by eexists _, _.
Qed.

Lemma fetch_returns c1 c2 key qd s :
  answers_records (dispatch cl c1) →
  ∃ items s', fetch cl c1 c2 key qd s = (Ok (PList items, PStr qd), s') ∧
    Forall (λ x, ∃ l, x = PRef l ∧ is_Some (st_heap s' !! l)) items.
Proof.
  intros Hc1. unfold fetch. rewrite bind_run. unfold invoke.
  destruct (Hc1 (st_world s) (st_heap s)) as (items & w' & h' & -> & Hne & Hall).
  rewrite bind_run, py_not_run. cbn [st_heap py_truthy].
  rewrite bool_decide_eq_false_2 by done. cbn [negb]. rewrite ret_run.
  by eexists items, _.
Qed.

Lemma get_overnight_signals_returns direction min_score limit date kwargs s tier :
  (_get_user_tier kwargs s).1 = Ok tier →
  (∀ qd ms lim, answers_records (fs_get_overnight_signals cl qd direction ms lim)) →
  ∃ resp s',
    get_overnight_signals cl direction min_score limit date kwargs s = (Ok resp, s').
Proof.
  intros Htier Hfs. rewrite get_overnight_signals_split, bind_run.
  destruct (_get_user_tier kwargs s) as [rt s0] eqn:Ht0. simpl in Htier. subst rt.
  cbv zeta. rewrite bind_run.
  match goal with |- context [fetch cl ?c1 ?c2 ?k ?q s0] =>
    destruct (fetch_returns c1 c2 k q s0) as (items & s1 & -> & Hall); [apply Hfs|] end.
  by apply respond_signals_returns.
Qed.

Lemma get_market_themes_returns date kwargs s tier :
  (_get_user_tier kwargs s).1 = Ok tier →
  (∀ qd, answers_records (fs_get_market_themes cl qd)) →
  ∃ resp s', get_market_themes cl date kwargs s = (Ok resp, s').
Proof.
  intros Htier Hfs. rewrite get_market_themes_split, bind_run.
  destruct (_get_user_tier kwargs s) as [rt s0] eqn:Ht0. simpl in Htier. subst rt.
  cbv zeta. rewrite bind_run.
  match goal with |- context [fetch cl ?c1 ?c2 ?k ?q s0] =>
    destruct (fetch_returns c1 c2 k q s0) as (items & s1 & -> & Hall); [apply Hfs|] end.
  by apply respond_themes_returns.
Qed.

(** *** What a [served] run tells *)

Lemma served_trace c1 c2 key qd response s r s' :
  served c1 c2 key qd response s r s' →
  ∃ e1 rest, st_trace s' = st_trace s ++ e1 :: rest ∧ ev_call e1 = c1 ∧
             Forall (λ e, ev_call e = c2) rest.
Proof.
  intros (e1 & evs & elast & Hc1 & Htr & _ & _ & _ &
          [[-> _]|(v & e2 & -> & _ & _ & Hc2 & _)]).
  - exists e1, []. by repeat split.
  - exists e1, [e2]. repeat split; try done. by constructor.
Qed.

Lemma served_last c1 c2 key qd response s r s' :
  served c1 c2 key qd response s r s' →
  ∃ evs elast, st_trace s' = st_trace s ++ evs ∧ last evs = Some elast ∧
               last (st_trace s') = Some elast ∧ ev_heap elast ⊆ st_heap s' ∧
               hands_over (st_heap s) evs.
Proof.
  intros (e1 & evs & elast & _ & Htr & Hlast & Hsub & Hho & _).
  exists evs, elast. do 2 (split; [done|]). split; [|done].
  by rewrite Htr, last_app, Hlast.
Qed.

Lemma served_response c1 c2 key qd response s resp s' :
  is_primary c1 = true → is_primary c2 = false →
  served c1 c2 key qd response s (Ok resp) s' →
  ∃ elast fetched scan_date,
    last (st_trace s') = Some elast ∧ ev_heap elast ⊆ st_heap s' ∧
    answer key elast = Ok fetched ∧
    response fetched scan_date (ev_heap elast) (st_heap s') resp.
Proof.
  intros Hp1 Hp2 (e1 & evs & elast & Hc1 & Htr & Hlast & Hsub & _ & Hcases).
  assert (Hl : last (st_trace s') = Some elast) by (by rewrite Htr, last_app, Hlast).
  destruct Hcases as [[-> Hr]|(v & e2 & -> & Hr1 & _ & Hc2 & Hr)].
  - injection Hlast as <-. destruct (ev_result e1) as [v|x] eqn:He1; [|done].
    destruct Hr as [_ Hr]. exists e1, v, (PStr qd). repeat split; try done.
    + unfold answer. by rewrite Hc1, Hp1.
    + by apply Hr.
  - injection Hlast as <-. unfold fallback_payload in Hr.
    destruct (ev_result e2) as [b|x] eqn:He2; [|done].
    destruct (heap_get (ev_heap e2) b key (PList [])) as [found|x] eqn:Hg1; [|done].
    destruct (heap_get (ev_heap e2) b "scan_date" (PStr qd)) as [sd|x] eqn:Hg2; [|done].
    exists e2, found, sd. repeat split; try done.
    + unfold answer. by rewrite Hc2, Hp2, He2.
    + by apply Hr.
Qed.

Lemma signals_response_lookup tier fetched sd h h' resp :
  signals_response tier fetched sd h h' resp →
  ∃ l d, resp = PRef l ∧ h !! l = None ∧ h' !! l = Some d ∧
    d !! "scan_date" = Some sd ∧
    if py_eq_str tier "FREE" then
      ∃ items outs,
        heap_iter h fetched = Ok items ∧
        Forall2 (stripped_copy premium_fields h h') items outs ∧
        d !! "signals" = Some (PList outs) ∧
        d !! "total_signals" = Some (PInt (Z.of_nat (length outs))) ∧
        is_Some (d !! "upgrade")
    else
      d !! "signals" = Some fetched ∧ d !! "upgrade" = None ∧ h' = <[l := d]> h.
Proof.
  intros (l & d & -> & Hl & Hd & Hrest). exists l, d. do 3 (split; [done|]).
  destruct (py_eq_str tier "FREE").
  - destruct Hrest as (items & outs & u & p1 & p2 & Hit & Hall & -> & Hu).
    split; [done|]. exists items, outs. by repeat split.
  - destruct Hrest as (n & Hn & -> & ->). by repeat split.
Qed.

Lemma themes_response_lookup tier fetched sd h h' resp :
  themes_response tier fetched sd h h' resp →
  ∃ l d, resp = PRef l ∧ h !! l = None ∧ h' !! l = Some d ∧
    d !! "scan_date" = Some sd ∧
    if py_eq_str tier "FREE" then
      ∃ items outs,
        heap_iter h fetched = Ok items ∧
        Forall2 (stripped_copy ["tickers"] h h') items outs ∧
        d !! "themes" = Some (PList outs)
    else
      d !! "themes" = Some fetched ∧ h' = <[l := d]> h.
Proof.
  intros (l & d & -> & Hl & Hd & Hrest). exists l, d. do 3 (split; [done|]).
  destruct (py_eq_str tier "FREE").
  - destruct Hrest as (items & outs & Hit & Hall & ->).
    split; [done|]. exists items, outs. by repeat split.
  - destruct Hrest as (-> & ->). by repeat split.
Qed.


End ToolFacts.

(** ** The primary store adapter *)

Section FirestoreFacts.
Context {S A : Type}.

Lemma try_except_soft (body : ST S A) (v : A) s name :
  (try_except body (λ _, mret v) s).1 ≠ Raise (Exception name).
Proof. unfold try_except. by destruct (body s) as [[a|[n|n]] s1]. Qed.

Lemma try_except_caught (body : ST S A) (v : A) s name s1 :
  body s = (Raise (Exception name), s1) →
  try_except body (λ _, mret v) s = (Ok v, s1).
Proof. unfold try_except. by intros ->. Qed.
End FirestoreFacts.

(** With the real primary client, no primary call of a tool ends in an
    [Exception]. *)
Lemma module_clients_primary_soft {W Doc : Type}
    (fs_client : FirestoreClient.firestore W Doc) bq_signals bq_detail bq_themes bq_movers
    (c : call) s name :
  is_primary c = true →
  (dispatch (module_clients fs_client bq_signals bq_detail bq_themes bq_movers) c s).1
  ≠ Raise (Exception name).
Proof.
  destruct c; try done; intros _; simpl;
    unfold FirestoreClient.get_overnight_signals, FirestoreClient.get_signal_detail,
      FirestoreClient.get_market_themes; apply try_except_soft.
Qed.


(** ** The scenarios of the test file, evaluated *)

Example free_request_queries_with_7_and_10 :
  ev_call <$> st_trace Fixture.free_signals_miss.2
  = [FsGetOvernightSignals "2026-01-02" "ALL" 7 10;
     BqGetOvernightSignals "latest" "ALL" 7 10].
Proof. vm_compute. reflexivity. Qed.

Example edge_request_queries_as_asked :
  ev_call <$> st_trace (get_overnight_signals Fixture.mock_hit "ALL" 5 20 "latest"
                          Fixture.kwargs_edge Fixture.s0).2
  = [FsGetOvernightSignals "2026-01-02" "ALL" 5 20].
Proof. vm_compute. reflexivity. Qed.

Example free_response_lists_stripped_copies :
  Fixture.free_signals_hit.1 = Ok (PRef 12) ∧
  (st_heap Fixture.free_signals_hit.2 !! 12%positive) ≫= (.!! "signals")
  = Some (PList [PRef 10; PRef 11]) ∧
  st_heap Fixture.free_signals_hit.2 !! 10%positive
  = Some {[ "ticker" := PStr "FSLY"; "overnight_score" := PInt 9 ]} ∧
  st_heap Fixture.free_signals_hit.2 !! 1%positive = Some Fixture.signal_fsly.
Proof. split_and!; vm_compute; reflexivity. Qed.

Example edge_response_serves_the_records :
  (st_heap (get_overnight_signals Fixture.mock_hit "ALL" 5 20 "latest"
              Fixture.kwargs_edge Fixture.s0).2 !! 10%positive) ≫= (.!! "signals")
  = Some (PList [PRef 1; PRef 2]).
Proof. vm_compute. reflexivity. Qed.

Example free_theme_loses_its_tickers :
  (st_heap Fixture.free_themes_hit.2 !! 11%positive) ≫= (.!! "themes")
  = Some (PList [PRef 10]) ∧
  st_heap Fixture.free_themes_hit.2 !! 10%positive = Some {[ "name" := PStr "AI" ]} ∧
  st_heap Fixture.free_themes_hit.2 !! 5%positive = Some Fixture.theme_ai.
Proof. split_and!; vm_compute; reflexivity. Qed.

Example fallback_scan_date_is_adopted :
  (st_heap Fixture.free_signals_miss.2 !! 11%positive) ≫= (.!! "scan_date")
  = Some (PStr "2026-01-01").
Proof. vm_compute. reflexivity. Qed.

Example upgrade_message_counts_signals :
  upgrade_message 2
  = "You're seeing 2 signals (score 7+ only). Unlock all signals, contracts, technicals & AI analysis.".
Proof. vm_compute. reflexivity. Qed.

(** * The claims of the specification *)

Section Claims.
Context {W : Type} (cl : clients W).
Implicit Types (s : state W) (kwargs : dict).

(** C1.  For a FREE caller, [get_overnight_signals] queries the primary
    store, and every store query it makes carries a minimum score of at
    least 7 and a limit of at most 10: the caller's minimum score is only
    ever raised (to exactly 7 when it was lower, untouched when it was 7
    or more) and the caller's limit only ever lowered (to exactly 10 when
    it was higher, untouched when it was 10 or less). *)
Theorem free_tier_tightens_query direction min_score limit date kwargs s :
  (_get_user_tier kwargs s).1 = Ok (PStr "FREE") →
  ∃ evs,
    st_trace (get_overnight_signals cl direction min_score limit date kwargs s).2
    = st_trace s ++ evs ∧
    evs ≠ [] ∧
    ∀ ev, ev ∈ evs →
      ∃ min_score' limit',
        score_limit_of (ev_call ev) = Some (min_score', limit') ∧
        (7 ≤ min_score')%Z ∧ (limit' ≤ 10)%Z ∧
        ((7 ≤ min_score)%Z → min_score' = min_score) ∧
        ((min_score ≤ 7)%Z → min_score' = 7) ∧
        ((limit ≤ 10)%Z → limit' = limit) ∧
        ((10 ≤ limit)%Z → limit' = 10).
Proof.
  intros Htier.
  destruct (get_overnight_signals cl direction min_score limit date kwargs s)
    as [r s'] eqn:Hrun.
  apply (get_overnight_signals_inv _ _ _ _ _ _ _ _ _ _ Htier) in Hrun.
  cbv zeta in Hrun. cbn [py_eq_str] in Hrun.
  rewrite bool_decide_eq_true_2 in Hrun by done.
  apply served_trace in Hrun as (e1 & rest & Htr & Hc1 & Hrest).
  exists (e1 :: rest). split; [done|]. split; [done|].
  intros ev Hin. exists (Z.max min_score 7), (Z.min limit 10).
  split; [|lia].
  apply elem_of_cons in Hin as [->|Hin].
  - by rewrite Hc1.
  - rewrite Forall_forall in Hrest. by rewrite (Hrest _ Hin).
Qed.

(** C3.  For a FREE caller, whatever the ticker and the date,
    [get_signal_detail] returns a new mapping whose ["error"] entry is
    ["upgrade_required"], and calls neither client: the trace and the
    outside world are as before. *)
Theorem signal_detail_denied_for_free ticker date kwargs s :
  (_get_user_tier kwargs s).1 = Ok (PStr "FREE") →
  ∃ l d,
    (get_signal_detail cl ticker date kwargs s).1 = Ok (PRef l) ∧
    st_heap s !! l = None ∧
    st_heap (get_signal_detail cl ticker date kwargs s).2 !! l = Some d ∧
    d !! "error" = Some (PStr "upgrade_required") ∧
    is_Some (d !! "message") ∧
    st_trace (get_signal_detail cl ticker date kwargs s).2 = st_trace s ∧
    st_world (get_signal_detail cl ticker date kwargs s).2 = st_world s.
Proof.
  intros Htier.
  destruct (get_signal_detail_denied cl ticker date kwargs s _ Htier eq_refl)
    as (l & s' & -> & (Hw & Htr & _ & _) & Hl & Hd).
  eexists l, _. repeat split; try done.
Qed.

(** C2.  When [get_overnight_signals] returns, its result is a new
    mapping.  For a FREE caller its ["signals"] entry lists, for each
    record the store answered with, one object that has none of the
    premium attributes.  For any other tier the entry is the very value
    the store answered with, and every object the store left in the heap
    is in the final heap with the same keys and values. *)
Theorem signals_redacted_for_free_only
    direction min_score limit date kwargs s tier resp s' :
  (_get_user_tier kwargs s).1 = Ok tier →
  get_overnight_signals cl direction min_score limit date kwargs s = (Ok resp, s') →
  ∃ l d elast fetched,
    resp = PRef l ∧ st_heap s' !! l = Some d ∧
    last (st_trace s') = Some elast ∧ answer "signals" elast = Ok fetched ∧
    if py_eq_str tier "FREE" then
      ∃ items outs,
        heap_iter (ev_heap elast) fetched = Ok items ∧
        d !! "signals" = Some (PList outs) ∧
        Forall2 (λ _ out, ∃ l' sd, out = PRef l' ∧ st_heap s' !! l' = Some sd ∧
                                   ∀ f, f ∈ premium_fields → sd !! f = None)
                items outs
    else
      d !! "signals" = Some fetched ∧
      ∀ l0 d0, ev_heap elast !! l0 = Some d0 → st_heap s' !! l0 = Some d0.
Proof.
  intros Htier Hrun.
  apply (get_overnight_signals_inv _ _ _ _ _ _ _ _ _ _ Htier) in Hrun. cbv zeta in Hrun.
  apply served_response in Hrun as (elast & fetched & sd & Hlast & Hsub & Hans & Hresp);
    [|done..].
  apply signals_response_lookup in Hresp as (l & d & -> & Hl & Hd & _ & Hrest).
  exists l, d, elast, fetched. do 4 (split; [done|]).
  destruct (py_eq_str tier "FREE").
  - destruct Hrest as (items & outs & Hit & Hall & Hsig & _).
    exists items, outs. do 2 (split; [done|]).
    eapply Forall2_impl; [done|].
    intros orig out (l' & sd' & -> & _ & Hl' & Hnone & _). by exists l', sd'.
  - destruct Hrest as (Hsig & _ & _). split; [done|].
    intros l0 d0 Hl0. by eapply lookup_weaken.
Qed.

(** C5.  [get_overnight_signals] leaves every object the stores returned
    as it was: whatever the outcome, objects are handed on unchanged
    between the calls of the run, and each object of the heap as the last
    client left it is in the final heap with the same keys and values.
    For a FREE caller the objects served are new ones, absent from that
    heap, and each agrees with the record it was copied from on every
    attribute that is not premium. *)
Theorem overnight_signals_never_mutates_records
    direction min_score limit date kwargs s tier r s' :
  (_get_user_tier kwargs s).1 = Ok tier →
  get_overnight_signals cl direction min_score limit date kwargs s = (r, s') →
  ∃ evs elast,
    st_trace s' = st_trace s ++ evs ∧ last evs = Some elast ∧
    hands_over (st_heap s) evs ∧
    (∀ l d, ev_heap elast !! l = Some d → st_heap s' !! l = Some d) ∧
    (py_eq_str tier "FREE" = true →
     ∀ resp, r = Ok resp →
       ∃ l d fetched items outs,
         resp = PRef l ∧ st_heap s' !! l = Some d ∧
         answer "signals" elast = Ok fetched ∧
         heap_iter (ev_heap elast) fetched = Ok items ∧
         d !! "signals" = Some (PList outs) ∧
         Forall2 (stripped_copy premium_fields (ev_heap elast) (st_heap s'))
                 items outs).
Proof.
  intros Htier Hrun.
  apply (get_overnight_signals_inv _ _ _ _ _ _ _ _ _ _ Htier) in Hrun. cbv zeta in Hrun.
  destruct (served_last _ _ _ _ _ _ _ _ Hrun)
    as (evs & elast & Htr & Hlast & Hl' & Hsub & Hho).
  exists evs, elast. do 3 (split; [done|]). split.
  { intros l d Hl. by eapply lookup_weaken. }
  intros Hfree resp ->.
  apply served_response in Hrun as (elast' & fetched & sd & Hlast' & _ & Hans & Hresp);
    [|done..].
  assert (elast' = elast) as -> by congruence.
  apply signals_response_lookup in Hresp as (l & d & -> & Hl & Hd & _ & Hrest).
  rewrite Hfree in Hrest. destruct Hrest as (items & outs & Hit & Hall & Hsig & _).
  by exists l, d, fetched, items, outs.
Qed.

(** C7.  When [get_market_themes] returns, its result is a new mapping.
    For a FREE caller its ["themes"] entry lists, for each theme the store
    answered with, a new object without the ["tickers"] attribute that
    agrees with the theme on every other attribute; the store's own
    objects are in the final heap unchanged.  For any other tier the
    entry is the very value the store answered with. *)
Theorem themes_tickers_stripped_for_free_only date kwargs s tier resp s' :
  (_get_user_tier kwargs s).1 = Ok tier →
  get_market_themes cl date kwargs s = (Ok resp, s') →
  ∃ l d elast fetched,
    resp = PRef l ∧ st_heap s' !! l = Some d ∧
    last (st_trace s') = Some elast ∧ answer "themes" elast = Ok fetched ∧
    (∀ l0 d0, ev_heap elast !! l0 = Some d0 → st_heap s' !! l0 = Some d0) ∧
    if py_eq_str tier "FREE" then
      ∃ items outs,
        heap_iter (ev_heap elast) fetched = Ok items ∧
        d !! "themes" = Some (PList outs) ∧
        Forall2 (λ orig out,
                   ∃ l' sd, out = PRef l' ∧ ev_heap elast !! l' = None ∧
                     st_heap s' !! l' = Some sd ∧ sd !! "tickers" = None ∧
                     ∀ l0 d0, orig = PRef l0 → ev_heap elast !! l0 = Some d0 →
                              ∀ k, k ≠ "tickers" → sd !! k = d0 !! k)
                items outs
    else d !! "themes" = Some fetched.
Proof.
  intros Htier Hrun.
  apply (get_market_themes_inv _ _ _ _ _ _ _ Htier) in Hrun. cbv zeta in Hrun.
  apply served_response in Hrun as (elast & fetched & sd & Hlast & Hsub & Hans & Hresp);
    [|done..].
  apply themes_response_lookup in Hresp as (l & d & -> & Hl & Hd & _ & Hrest).
  exists l, d, elast, fetched. do 4 (split; [done|]). split.
  { intros l0 d0 Hl0. by eapply lookup_weaken. }
  destruct (py_eq_str tier "FREE").
  - destruct Hrest as (items & outs & Hit & Hall & Hth).
    exists items, outs. do 2 (split; [done|]).
    eapply Forall2_impl; [done|].
    intros orig out (l' & sd' & -> & Hnew & Hl' & Hnone & Hsame).
    exists l', sd'. do 3 (split; [done|]). split.
    + apply Hnone. by left.
    + intros l0 d0 -> Hd0 k Hk. eapply Hsame; [done..|].
      by intros ->%list_elem_of_singleton.
  - by destruct Hrest.
Qed.



(** C9.  With [date = "latest"], each tool asks the primary client for the
    current calendar date, today as the clock gives it: the first call of
    the run is the primary call with that date, and every later call of
    the run goes to the warehouse.  ([get_signal_detail] reaches the
    primary client only for a caller that is not FREE.) *)
Theorem latest_is_resolved_to_today direction min_score limit ticker kwargs s tier :
  (_get_user_tier kwargs s).1 = Ok tier →
  (∃ e1 rest min_score' limit',
     st_trace (get_overnight_signals cl direction min_score limit "latest" kwargs s).2
     = st_trace s ++ e1 :: rest ∧
     ev_call e1 = FsGetOvernightSignals (st_today s) direction min_score' limit' ∧
     Forall (λ e, is_primary (ev_call e) = false) rest) ∧
  (py_eq_str tier "FREE" = false →
   ∃ e1 rest,
     st_trace (get_signal_detail cl ticker "latest" kwargs s).2
     = st_trace s ++ e1 :: rest ∧
     ev_call e1 = FsGetSignalDetail ticker (st_today s) ∧
     Forall (λ e, is_primary (ev_call e) = false) rest) ∧
  (∃ e1 rest,
     st_trace (get_market_themes cl "latest" kwargs s).2 = st_trace s ++ e1 :: rest ∧
     ev_call e1 = FsGetMarketThemes (st_today s) ∧
     Forall (λ e, is_primary (ev_call e) = false) rest).
Proof.
  intros Htier. split; [|split].
  - destruct (get_overnight_signals cl direction min_score limit "latest" kwargs s)
      as [r s'] eqn:Hrun.
    apply (get_overnight_signals_inv _ _ _ _ _ _ _ _ _ _ Htier) in Hrun.
    cbv zeta in Hrun.
    apply served_trace in Hrun as (e1 & rest & Htr & Hc1 & Hrest).
    eexists e1, rest, _, _. split; [done|]. split; [exact Hc1|].
    eapply Forall_impl; [done|]. by intros e ->.
  - intros Hpaid.
    destruct (get_signal_detail cl ticker "latest" kwargs s) as [r s'] eqn:Hrun.
    destruct (get_signal_detail_inv cl _ _ _ _ _ _ _ Htier Hpaid Hrun) as (e1 & Hc1 & H1).
    cbn [snd]. destruct (ev_result e1) as [v1|x].
    + destruct (py_truthy (ev_heap e1) v1).
      * destruct H1 as (_ & Htr & _). by exists e1, [].
      * destruct H1 as (e2 & Hc2 & Htr & _). exists e1, [e2].
        repeat split; try done. constructor; [|done]. by rewrite Hc2.
    + destruct H1 as (_ & Htr & _). by exists e1, [].
  - destruct (get_market_themes cl "latest" kwargs s) as [r s'] eqn:Hrun.
    apply (get_market_themes_inv _ _ _ _ _ _ _ Htier) in Hrun. cbv zeta in Hrun.
    apply served_trace in Hrun as (e1 & rest & Htr & Hc1 & Hrest).
    exists e1, rest. split; [done|]. split; [exact Hc1|].
    eapply Forall_impl; [done|]. by intros e ->.
Qed.

End Claims.

Section AdapterClaims.
Context {W Doc : Type} (client : FirestoreClient.firestore W Doc).
Import FirestoreClient.

(** C6.  No operation of the primary store adapter lets an exception of
    the store escape: none ever raises an [Exception]; when its [try]
    block raises one, and in particular when running the query does,
    [get_overnight_signals] returns the empty list, [get_signal_detail]
    returns [None] and [get_market_themes] returns the empty list. *)
Theorem primary_adapter_fails_soft date direction ticker min_score limit_ s :
  ((∀ name, (get_overnight_signals client date direction min_score limit_ s).1
            ≠ Raise (Exception name)) ∧
   (∀ name s1,
      get_overnight_signals_try client date direction min_score limit_ s
      = (Raise (Exception name), s1) →
      get_overnight_signals client date direction min_score limit_ s
      = (Ok (PList []), s1)) ∧
   (∀ name s1,
      stream client (signals_query date direction min_score limit_) s
      = (Raise (Exception name), s1) →
      get_overnight_signals client date direction min_score limit_ s
      = (Ok (PList []), s1))) ∧
  ((∀ name, (get_signal_detail client ticker date s).1 ≠ Raise (Exception name)) ∧
   (∀ name s1,
      get_signal_detail_try client ticker date s = (Raise (Exception name), s1) →
      get_signal_detail client ticker date s = (Ok PNone, s1)) ∧
   (∀ name s1,
      stream client (detail_query ticker date) s = (Raise (Exception name), s1) →
      get_signal_detail client ticker date s = (Ok PNone, s1))) ∧
  ((∀ name, (get_market_themes client date s).1 ≠ Raise (Exception name)) ∧
   (∀ name s1,
      get_market_themes_try client date s = (Raise (Exception name), s1) →
      get_market_themes client date s = (Ok (PList []), s1)) ∧
   (∀ name s1,
      stream client (themes_query date) s = (Raise (Exception name), s1) →
      get_market_themes client date s = (Ok (PList []), s1))).
Proof.
  repeat split.
  - intros name. apply try_except_soft.
  - intros name s1. apply try_except_caught.
  - intros name s1 Hs. apply (try_except_caught _ _ _ name).
    unfold get_overnight_signals_try. by rewrite bind_run, Hs.
  - intros name. apply try_except_soft.
  - intros name s1. apply try_except_caught.
  - intros name s1 Hs. apply (try_except_caught _ _ _ name).
    unfold get_signal_detail_try. by rewrite bind_run, Hs.
  - intros name. apply try_except_soft.
  - intros name s1. apply try_except_caught.
  - intros name s1 Hs. apply (try_except_caught _ _ _ name).
    unfold get_market_themes_try. by rewrite bind_run, Hs.
Qed.
End AdapterClaims.

(** * The claims at the test doubles *)

Lemma free_tier_tightens_query_witness :
  (_get_user_tier Fixture.kwargs_free Fixture.s0).1 = Ok (PStr "FREE") ∧
  ∃ evs,
    st_trace (get_overnight_signals Fixture.mock_miss "ALL" 5 50 "latest"
                Fixture.kwargs_free Fixture.s0).2
    = st_trace Fixture.s0 ++ evs ∧
    evs ≠ [] ∧
    ∀ ev, ev ∈ evs →
      ∃ min_score' limit',
        score_limit_of (ev_call ev) = Some (min_score', limit') ∧
        (7 ≤ min_score')%Z ∧ (limit' ≤ 10)%Z ∧
        ((7 ≤ 5)%Z → min_score' = 5) ∧ ((5 ≤ 7)%Z → min_score' = 7) ∧
        ((50 ≤ 10)%Z → limit' = 50) ∧ ((10 ≤ 50)%Z → limit' = 10).
Proof.
  assert (Hfree : (_get_user_tier Fixture.kwargs_free Fixture.s0).1 = Ok (PStr "FREE"))
    by (vm_compute; reflexivity).
  exact (conj Hfree
           (free_tier_tightens_query Fixture.mock_miss "ALL" 5 50 "latest"
              Fixture.kwargs_free Fixture.s0 Hfree)).
Defined.

Lemma signals_redacted_for_free_only_witness :
  (_get_user_tier Fixture.kwargs_free Fixture.s0).1 = Ok (PStr "FREE") ∧
  Fixture.free_signals_hit = (Ok (PRef 12), Fixture.free_signals_hit.2) ∧
  ∃ l d elast fetched,
    PRef 12 = PRef l ∧ st_heap Fixture.free_signals_hit.2 !! l = Some d ∧
    last (st_trace Fixture.free_signals_hit.2) = Some elast ∧
    answer "signals" elast = Ok fetched ∧
    if py_eq_str (PStr "FREE") "FREE" then
      ∃ items outs,
        heap_iter (ev_heap elast) fetched = Ok items ∧
        d !! "signals" = Some (PList outs) ∧
        Forall2 (λ _ out, ∃ l' sd, out = PRef l' ∧
                   st_heap Fixture.free_signals_hit.2 !! l' = Some sd ∧
                   ∀ f, f ∈ premium_fields → sd !! f = None)
                items outs
    else
      d !! "signals" = Some fetched ∧
      ∀ l0 d0, ev_heap elast !! l0 = Some d0 →
               st_heap Fixture.free_signals_hit.2 !! l0 = Some d0.
Proof.
  assert (Hfree : (_get_user_tier Fixture.kwargs_free Fixture.s0).1 = Ok (PStr "FREE"))
    by (vm_compute; reflexivity).
  assert (Hrun : Fixture.free_signals_hit = (Ok (PRef 12), Fixture.free_signals_hit.2))
    by (vm_compute; reflexivity).
  exact (conj Hfree (conj Hrun
           (signals_redacted_for_free_only Fixture.mock_hit "ALL" 5 10 "latest"
              Fixture.kwargs_free Fixture.s0 _ _ _ Hfree Hrun))).
Defined.

Lemma signal_detail_denied_for_free_witness :
  (_get_user_tier Fixture.kwargs_free Fixture.s0).1 = Ok (PStr "FREE") ∧
  ∃ l d,
    (get_signal_detail Fixture.mock_hit "FSLY" "latest"
       Fixture.kwargs_free Fixture.s0).1 = Ok (PRef l) ∧
    st_heap Fixture.s0 !! l = None ∧
    st_heap (get_signal_detail Fixture.mock_hit "FSLY" "latest"
               Fixture.kwargs_free Fixture.s0).2 !! l = Some d ∧
    d !! "error" = Some (PStr "upgrade_required") ∧
    is_Some (d !! "message") ∧
    st_trace (get_signal_detail Fixture.mock_hit "FSLY" "latest"
                Fixture.kwargs_free Fixture.s0).2 = st_trace Fixture.s0 ∧
    st_world (get_signal_detail Fixture.mock_hit "FSLY" "latest"
                Fixture.kwargs_free Fixture.s0).2 = st_world Fixture.s0.
Proof.
  assert (Hfree : (_get_user_tier Fixture.kwargs_free Fixture.s0).1 = Ok (PStr "FREE"))
    by (vm_compute; reflexivity).
  exact (conj Hfree
           (signal_detail_denied_for_free Fixture.mock_hit "FSLY" "latest"
              Fixture.kwargs_free Fixture.s0 Hfree)).
Defined.


Lemma overnight_signals_never_mutates_records_witness :
  (_get_user_tier Fixture.kwargs_free Fixture.s0).1 = Ok (PStr "FREE") ∧
  Fixture.free_signals_hit = (Ok (PRef 12), Fixture.free_signals_hit.2) ∧
  ∃ evs elast,
    st_trace Fixture.free_signals_hit.2 = st_trace Fixture.s0 ++ evs ∧
    last evs = Some elast ∧
    hands_over (st_heap Fixture.s0) evs ∧
    (∀ l d, ev_heap elast !! l = Some d →
            st_heap Fixture.free_signals_hit.2 !! l = Some d) ∧
    (py_eq_str (PStr "FREE") "FREE" = true →
     ∀ resp, Ok (PRef 12) = Ok resp →
       ∃ l d fetched items outs,
         resp = PRef l ∧ st_heap Fixture.free_signals_hit.2 !! l = Some d ∧
         answer "signals" elast = Ok fetched ∧
         heap_iter (ev_heap elast) fetched = Ok items ∧
         d !! "signals" = Some (PList outs) ∧
         Forall2 (stripped_copy premium_fields (ev_heap elast)
                    (st_heap Fixture.free_signals_hit.2))
                 items outs).
Proof.
  assert (Hfree : (_get_user_tier Fixture.kwargs_free Fixture.s0).1 = Ok (PStr "FREE"))
    by (vm_compute; reflexivity).
  assert (Hrun : Fixture.free_signals_hit = (Ok (PRef 12), Fixture.free_signals_hit.2))
    by (vm_compute; reflexivity).
  exact (conj Hfree (conj Hrun
           (overnight_signals_never_mutates_records Fixture.mock_hit "ALL" 5 10 "latest"
              Fixture.kwargs_free Fixture.s0 _ _ _ Hfree Hrun))).
Defined.

Lemma primary_adapter_fails_soft_witness :
  FirestoreClient.stream Fixture.firestore_down
    (FirestoreClient.signals_query "2026-01-02" "ALL" 7 10) (tt, Fixture.heap0)
  = (Raise (Exception "ServiceUnavailable"), (tt, Fixture.heap0)) ∧
  FirestoreClient.stream Fixture.firestore_down
    (FirestoreClient.detail_query "FSLY" "2026-01-02") (tt, Fixture.heap0)
  = (Raise (Exception "ServiceUnavailable"), (tt, Fixture.heap0)) ∧
  FirestoreClient.stream Fixture.firestore_down
    (FirestoreClient.themes_query "2026-01-02") (tt, Fixture.heap0)
  = (Raise (Exception "ServiceUnavailable"), (tt, Fixture.heap0)) ∧
  FirestoreClient.get_overnight_signals Fixture.firestore_down
    "2026-01-02" "ALL" 7 10 (tt, Fixture.heap0)
  = (Ok (PList []), (tt, Fixture.heap0)) ∧
  FirestoreClient.get_signal_detail Fixture.firestore_down
    "FSLY" "2026-01-02" (tt, Fixture.heap0)
  = (Ok PNone, (tt, Fixture.heap0)) ∧
  FirestoreClient.get_market_themes Fixture.firestore_down
    "2026-01-02" (tt, Fixture.heap0)
  = (Ok (PList []), (tt, Fixture.heap0)).
Proof.
  pose proof (primary_adapter_fails_soft Fixture.firestore_down
                "2026-01-02" "ALL" "FSLY" 7 10 (tt, Fixture.heap0))
    as ((_ & _ & Hsignals) & (_ & _ & Hdetail) & (_ & _ & Hthemes)).
  exact (conj eq_refl (conj eq_refl (conj eq_refl
           (conj (Hsignals "ServiceUnavailable" _ eq_refl)
              (conj (Hdetail "ServiceUnavailable" _ eq_refl)
                    (Hthemes "ServiceUnavailable" _ eq_refl)))))).
Defined.

Lemma themes_tickers_stripped_for_free_only_witness :
  (_get_user_tier Fixture.kwargs_free Fixture.s0).1 = Ok (PStr "FREE") ∧
  Fixture.free_themes_hit = (Ok (PRef 11), Fixture.free_themes_hit.2) ∧
  ∃ l d elast fetched,
    PRef 11 = PRef l ∧ st_heap Fixture.free_themes_hit.2 !! l = Some d ∧
    last (st_trace Fixture.free_themes_hit.2) = Some elast ∧
    answer "themes" elast = Ok fetched ∧
    (∀ l0 d0, ev_heap elast !! l0 = Some d0 →
              st_heap Fixture.free_themes_hit.2 !! l0 = Some d0) ∧
    if py_eq_str (PStr "FREE") "FREE" then
      ∃ items outs,
        heap_iter (ev_heap elast) fetched = Ok items ∧
        d !! "themes" = Some (PList outs) ∧
        Forall2 (λ orig out,
                   ∃ l' sd, out = PRef l' ∧ ev_heap elast !! l' = None ∧
                     st_heap Fixture.free_themes_hit.2 !! l' = Some sd ∧
                     sd !! "tickers" = None ∧
                     ∀ l0 d0, orig = PRef l0 → ev_heap elast !! l0 = Some d0 →
                              ∀ k, k ≠ "tickers" → sd !! k = d0 !! k)
                items outs
    else d !! "themes" = Some fetched.
Proof.
  assert (Hfree : (_get_user_tier Fixture.kwargs_free Fixture.s0).1 = Ok (PStr "FREE"))
    by (vm_compute; reflexivity).
  assert (Hrun : Fixture.free_themes_hit = (Ok (PRef 11), Fixture.free_themes_hit.2))
    by (vm_compute; reflexivity).
  exact (conj Hfree (conj Hrun
           (themes_tickers_stripped_for_free_only Fixture.mock_hit "latest"
              Fixture.kwargs_free Fixture.s0 _ _ _ Hfree Hrun))).
Defined.


Lemma latest_is_resolved_to_today_witness :
  (_get_user_tier Fixture.kwargs_edge Fixture.s0).1 = Ok (PStr "EDGE") ∧
  py_eq_str (PStr "EDGE") "FREE" = false ∧
  (∃ e1 rest min_score' limit',
     st_trace (get_overnight_signals Fixture.mock_miss "ALL" 5 20 "latest"
                 Fixture.kwargs_edge Fixture.s0).2
     = st_trace Fixture.s0 ++ e1 :: rest ∧
     ev_call e1 = FsGetOvernightSignals "2026-01-02" "ALL" min_score' limit' ∧
     Forall (λ e, is_primary (ev_call e) = false) rest) ∧
  (∃ e1 rest,
     st_trace (get_signal_detail Fixture.mock_miss "FSLY" "latest"
                 Fixture.kwargs_edge Fixture.s0).2
     = st_trace Fixture.s0 ++ e1 :: rest ∧
     ev_call e1 = FsGetSignalDetail "FSLY" "2026-01-02" ∧
     Forall (λ e, is_primary (ev_call e) = false) rest) ∧
  (∃ e1 rest,
     st_trace (get_market_themes Fixture.mock_miss "latest"
                 Fixture.kwargs_edge Fixture.s0).2
     = st_trace Fixture.s0 ++ e1 :: rest ∧
     ev_call e1 = FsGetMarketThemes "2026-01-02" ∧
     Forall (λ e, is_primary (ev_call e) = false) rest).
Proof.
  assert (Hedge : (_get_user_tier Fixture.kwargs_edge Fixture.s0).1 = Ok (PStr "EDGE"))
    by (vm_compute; reflexivity).
  assert (Hpaid : py_eq_str (PStr "EDGE") "FREE" = false) by reflexivity.
  destruct (latest_is_resolved_to_today Fixture.mock_miss "ALL" 5 20 "FSLY"
              Fixture.kwargs_edge Fixture.s0 _ Hedge) as (Hsignals & Hdetail & Hthemes).
  exact (conj Hedge (conj Hpaid (conj Hsignals (conj (Hdetail Hpaid) Hthemes)))).
Defined.


(** * Further properties of the code *)

(** ** [FirestoreClient.__init__] *)

Section InitFacts.
Context {W Handle : Type} (Client : option string → ST W Handle).
Import FirestoreInit.

(** X17.  The library client is a process-wide singleton.  A construction
    calls [firestore.Client] only when the class attribute is unset, with
    the project of the environment; once one construction has succeeded,
    every later one, whatever the environment says by then, returns an
    object with that same client without calling the library or touching
    the world.  A construction that fails leaves the attribute unset. *)
Theorem client_is_created_once (p : process W Handle) (r : result (instance Handle))
    (p1 : process W Handle) :
  __init__ Client p = (r, p1) →
  client_calls p1
  = client_calls p ++ match _client_instance p with
                      | Some _ => []
                      | None => [environ p !! "GCP_PROJECT_ID"]
                      end ∧
  match r with
  | Ok i =>
      _client_instance p1 = Some (client i) ∧
      project_id i = environ p !! "GCP_PROJECT_ID" ∧
      (∀ h, _client_instance p = Some h → client i = h ∧ p1 = p) ∧
      ∀ env',
        let p2 := Process (world p1) env' (_client_instance p1) (client_calls p1) in
        __init__ Client p2
        = (Ok (Instance (env' !! "GCP_PROJECT_ID") (client i)
                        "overnight_signals" "market_themes"), p2)
  | Raise e => _client_instance p = None ∧ _client_instance p1 = None
  end.
Proof.
  destruct p as [w env inst calls].
  unfold __init__, getenv, get_client_instance, new_Client, set_client_instance,
    mbind, mret, ST_bind, ST_ret, st_bind, st_ret.
  simpl. destruct inst as [h|]; simpl.
  - intros [= <- <-]. simpl. split; [by rewrite app_nil_r|].
    repeat split; try done; congruence.
  - destruct (Client (env !! "GCP_PROJECT_ID") w) as [[h|e] w1]; simpl;
      intros [= <- <-]; simpl; repeat split; done.
Qed.
End InitFacts.

Lemma client_is_created_once_witness :
  FirestoreInit.__init__ Doubles.Client Doubles.fresh_process
  = (Ok (FirestoreInit.Instance (Some "gammarips") 0%nat
           "overnight_signals" "market_themes"),
     FirestoreInit.Process 1%nat {[ "GCP_PROJECT_ID" := "gammarips" ]} (Some 0%nat)
       [Some "gammarips"]) ∧
  ∀ env',
    FirestoreInit.__init__ Doubles.Client
      (FirestoreInit.Process 1%nat env' (Some 0%nat) [Some "gammarips"])
    = (Ok (FirestoreInit.Instance (env' !! "GCP_PROJECT_ID") 0%nat
             "overnight_signals" "market_themes"),
       FirestoreInit.Process 1%nat env' (Some 0%nat) [Some "gammarips"]).
Proof.
  assert (Hrun : FirestoreInit.__init__ Doubles.Client Doubles.fresh_process
                 = (Ok (FirestoreInit.Instance (Some "gammarips") 0%nat
                          "overnight_signals" "market_themes"),
                    FirestoreInit.Process 1%nat {[ "GCP_PROJECT_ID" := "gammarips" ]}
                      (Some 0%nat) [Some "gammarips"]))
    by (vm_compute; reflexivity).
  exact (conj Hrun
           (proj2 (proj2 (proj2 (proj2
              (client_is_created_once Doubles.Client _ _ _ Hrun)))))).
Defined.

(** ** The primary store adapter *)

Lemma for_append_length {S A B} (body : A → ST S B) (xs : list A) s ys s' :
  for_append body xs s = (Ok ys, s') → length ys = length xs.
Proof.
  revert s ys. induction xs as [|x xs IH]; intros s ys; simpl.
  - rewrite ret_run. by intros [= <- <-].
  - rewrite bind_run. destruct (body x s) as [[y|e] s1]; [|done].
    rewrite bind_run. destruct (for_append body xs s1) as [[zs|e] s2] eqn:Hxs; [|done].
    rewrite ret_run. intros [= <- <-]. simpl. f_equal. by eapply IH.
Qed.

Section AdapterExtras.
Context {W Doc : Type} (client : FirestoreClient.firestore W Doc).
Import FirestoreClient.

Lemma signals_query_where date direction min_score limit_ :
  q_where (signals_query date direction min_score limit_)
  = ("scan_date", OpEq, PStr date)
    :: (if bool_decide (direction ≠ "ALL")
        then [("direction", OpEq, PStr direction)] else [])
    ++ (if bool_decide (min_score > 0)%Z
        then [("overnight_score", OpGe, PInt min_score)] else []).
Proof. unfold signals_query. do 2 case_bool_decide; reflexivity. Qed.

(** X2.  The query for signals always filters on the scan date, orders by
    score, highest first, and is cut at [limit].  It filters on the
    direction exactly when the direction is not ["ALL"], and on the score
    exactly when [min_score] is positive, so that zero or a negative
    minimum means no score filter.  There is no other filter. *)
Theorem signals_query_filters date direction min_score limit_ :
  q_collection (signals_query date direction min_score limit_) = "overnight_signals" ∧
  q_order_by (signals_query date direction min_score limit_)
  = [("overnight_score", DESCENDING)] ∧
  q_limit (signals_query date direction min_score limit_) = Some limit_ ∧
  (∀ o v, ("scan_date", o, v) ∈ q_where (signals_query date direction min_score limit_)
          ↔ o = OpEq ∧ v = PStr date) ∧
  (∀ o v, ("direction", o, v) ∈ q_where (signals_query date direction min_score limit_)
          ↔ direction ≠ "ALL" ∧ o = OpEq ∧ v = PStr direction) ∧
  (∀ o v, ("overnight_score", o, v)
          ∈ q_where (signals_query date direction min_score limit_)
          ↔ (0 < min_score)%Z ∧ o = OpGe ∧ v = PInt min_score) ∧
  (∀ f o v, (f, o, v) ∈ q_where (signals_query date direction min_score limit_) →
            f = "scan_date" ∨ f = "direction" ∨ f = "overnight_score").
Proof.
  split; [by unfold signals_query; do 2 case_bool_decide|].
  split; [by unfold signals_query; do 2 case_bool_decide|].
  split; [by unfold signals_query; do 2 case_bool_decide|].
  rewrite signals_query_where. split_and!; intros *;
    rewrite elem_of_cons, elem_of_app;
    do 2 case_bool_decide;
    rewrite ?list_elem_of_singleton, ?elem_of_nil;
    try (split; [intros [?|[?|?]]|intros (?&?&?)]; simplify_eq;
         repeat split; try done; try lia; auto);
    try (split; [intros [?|[?|?]]|intros (?&?)]; simplify_eq;
         repeat split; try done; auto);
    try (intros [?|[?|?]]; simplify_eq; try done; auto).
Qed.

(** X3.  When the query and the reading of every document succeed,
    [get_overnight_signals] returns the documents' dicts in the order the
    store streamed them, one per document: none is dropped, none added. *)
Theorem signals_one_record_per_document date direction min_score limit_ s docs s1 vs s2 :
  stream client (signals_query date direction min_score limit_) s = (Ok docs, s1) →
  for_append (to_dict client) docs s1 = (Ok vs, s2) →
  get_overnight_signals client date direction min_score limit_ s = (Ok (PList vs), s2) ∧
  length vs = length docs ∧
  ∀ i doc, docs !! i = Some doc →
    ∃ v sa sb, vs !! i = Some v ∧ to_dict client doc sa = (Ok v, sb).
Proof.
  intros Hs Hd. split; [|split].
  - unfold get_overnight_signals, try_except, get_overnight_signals_try.
    by rewrite bind_run, Hs, bind_run, Hd.
  - by eapply for_append_length.
  - clear Hs. revert s1 vs Hd. induction docs as [|d ds IH]; intros s1 vs Hd i doc Hi.
    + done.
    + simpl in Hd. rewrite bind_run in Hd.
      destruct (to_dict client d s1) as [[y|e] sa] eqn:Hy; [|done].
      rewrite bind_run in Hd.
      destruct (for_append (to_dict client) ds sa) as [[zs|e] sb] eqn:Hzs; [|done].
      rewrite ret_run in Hd. injection Hd as <- <-.
      destruct i as [|i]; simpl in *.
      * injection Hi as <-. by exists y, s1, sa.
      * by eapply IH.
Qed.

(** X4.  [get_signal_detail] returns [None] when no document matches, and
    otherwise the dict of the first document the store streams, whatever
    follows it. *)
Theorem detail_is_the_first_document ticker date s :
  (∀ s1, stream client (detail_query ticker date) s = (Ok [], s1) →
         get_signal_detail client ticker date s = (Ok PNone, s1)) ∧
  (∀ doc0 rest s1 v s2,
     stream client (detail_query ticker date) s = (Ok (doc0 :: rest), s1) →
     to_dict client doc0 s1 = (Ok v, s2) →
     get_signal_detail client ticker date s = (Ok v, s2)).
Proof.
  split.
  - intros s1 Hs. unfold get_signal_detail, try_except, get_signal_detail_try.
    by rewrite bind_run, Hs.
  - intros doc0 rest s1 v s2 Hs Hd.
    unfold get_signal_detail, try_except, get_signal_detail_try.
    by rewrite bind_run, Hs, Hd.
Qed.

(** X5.  [get_market_themes] returns the empty list when no summary
    document matches, when the document has no ["themes"] entry, and when
    the document does not read as a mapping; otherwise it returns the
    document's ["themes"] entry as it is. *)
Theorem themes_default_to_empty date s :
  (∀ s1, stream client (themes_query date) s = (Ok [], s1) →
         get_market_themes client date s = (Ok (PList []), s1)) ∧
  (∀ doc0 rest s1 l d s2,
     stream client (themes_query date) s = (Ok (doc0 :: rest), s1) →
     to_dict client doc0 s1 = (Ok (PRef l), s2) → s2.2 !! l = Some d →
     get_market_themes client date s = (Ok (default (PList []) (d !! "themes")), s2)) ∧
  (∀ doc0 rest s1 v s2,
     stream client (themes_query date) s = (Ok (doc0 :: rest), s1) →
     to_dict client doc0 s1 = (Ok v, s2) → (∀ l, v ≠ PRef l) →
     get_market_themes client date s = (Ok (PList []), s2)).
Proof.
  split; [|split].
  - intros s1 Hs. unfold get_market_themes, try_except, get_market_themes_try.
    by rewrite bind_run, Hs.
  - intros doc0 rest s1 l d s2 Hs Hd Hl.
    unfold get_market_themes, try_except, get_market_themes_try.
    rewrite bind_run, Hs, bind_run, Hd. unfold dict_get, heap_get. by rewrite Hl.
  - intros doc0 rest s1 v s2 Hs Hd Hv.
    unfold get_market_themes, try_except, get_market_themes_try.
    rewrite bind_run, Hs, bind_run, Hd. unfold dict_get, heap_get.
    destruct v; try done. by destruct (Hv l).
Qed.

(** X6.  The adapter catches [Exception] only: an exception outside that
    class raised by the query, such as a keyboard interrupt, leaves each of
    its three operations as it was raised, with the state as the library
    left it. *)
Theorem adapter_lets_base_exceptions_through date direction ticker min_score limit_ s :
  (∀ name s1,
     stream client (signals_query date direction min_score limit_) s
     = (Raise (BaseOnly name), s1) →
     get_overnight_signals client date direction min_score limit_ s
     = (Raise (BaseOnly name), s1)) ∧
  (∀ name s1,
     stream client (detail_query ticker date) s = (Raise (BaseOnly name), s1) →
     get_signal_detail client ticker date s = (Raise (BaseOnly name), s1)) ∧
  (∀ name s1,
     stream client (themes_query date) s = (Raise (BaseOnly name), s1) →
     get_market_themes client date s = (Raise (BaseOnly name), s1)).
Proof.
  split_and!; intros name s1 Hs.
  - unfold get_overnight_signals, try_except, get_overnight_signals_try.
    by rewrite bind_run, Hs.
  - unfold get_signal_detail, try_except, get_signal_detail_try.
    by rewrite bind_run, Hs.
  - unfold get_market_themes, try_except, get_market_themes_try.
    by rewrite bind_run, Hs.
Qed.
End AdapterExtras.

Lemma signals_one_record_per_document_witness :
  FirestoreClient.stream Doubles.firestore_two
    (FirestoreClient.signals_query "2026-01-02" "ALL" 7 10) (tt, Fixture.heap0)
  = (Ok [1%positive; 2%positive], (tt, Fixture.heap0)) ∧
  for_append (FirestoreClient.to_dict Doubles.firestore_two)
    [1%positive; 2%positive] (tt, Fixture.heap0)
  = (Ok [PRef 1; PRef 2], (tt, Fixture.heap0)) ∧
  FirestoreClient.get_overnight_signals Doubles.firestore_two
    "2026-01-02" "ALL" 7 10 (tt, Fixture.heap0)
  = (Ok (PList [PRef 1; PRef 2]), (tt, Fixture.heap0)) ∧
  length [PRef 1; PRef 2] = length [1%positive; 2%positive] ∧
  ∀ i doc, [1%positive; 2%positive] !! i = Some doc →
    ∃ v sa sb, [PRef 1; PRef 2] !! i = Some v ∧
      FirestoreClient.to_dict Doubles.firestore_two doc sa = (Ok v, sb).
Proof.
  exact (conj eq_refl (conj eq_refl
           (signals_one_record_per_document Doubles.firestore_two
              "2026-01-02" "ALL" 7 10 (tt, Fixture.heap0) _ _ _ _ eq_refl eq_refl))).
Defined.

Lemma detail_is_the_first_document_witness :
  FirestoreClient.stream Doubles.firestore_empty
    (FirestoreClient.detail_query "FSLY" "2026-01-02") (tt, Fixture.heap0)
  = (Ok [], (tt, Fixture.heap0)) ∧
  FirestoreClient.get_signal_detail Doubles.firestore_empty
    "FSLY" "2026-01-02" (tt, Fixture.heap0)
  = (Ok PNone, (tt, Fixture.heap0)) ∧
  FirestoreClient.stream Doubles.firestore_two
    (FirestoreClient.detail_query "FSLY" "2026-01-02") (tt, Fixture.heap0)
  = (Ok [1%positive; 2%positive], (tt, Fixture.heap0)) ∧
  FirestoreClient.to_dict Doubles.firestore_two 1%positive (tt, Fixture.heap0)
  = (Ok (PRef 1), (tt, Fixture.heap0)) ∧
  FirestoreClient.get_signal_detail Doubles.firestore_two
    "FSLY" "2026-01-02" (tt, Fixture.heap0)
  = (Ok (PRef 1), (tt, Fixture.heap0)).
Proof.
  exact (conj eq_refl
          (conj (proj1 (detail_is_the_first_document Doubles.firestore_empty
                          "FSLY" "2026-01-02" (tt, Fixture.heap0)) _ eq_refl)
          (conj eq_refl (conj eq_refl
             (proj2 (detail_is_the_first_document Doubles.firestore_two
                       "FSLY" "2026-01-02" (tt, Fixture.heap0))
                _ _ _ _ _ eq_refl eq_refl))))).
Defined.

Lemma themes_default_to_empty_witness :
  FirestoreClient.stream Doubles.firestore_bare
    (FirestoreClient.themes_query "2026-01-02") (tt, Fixture.heap0)
  = (Ok [3%positive], (tt, Fixture.heap0)) ∧
  FirestoreClient.to_dict Doubles.firestore_bare 3%positive (tt, Fixture.heap0)
  = (Ok (PRef 3), (tt, Fixture.heap0)) ∧
  Fixture.heap0 !! 3%positive = Some {[ "tier" := PStr "FREE" ]} ∧
  FirestoreClient.get_market_themes Doubles.firestore_bare "2026-01-02" (tt, Fixture.heap0)
  = (Ok (default (PList []) (({[ "tier" := PStr "FREE" ]} : dict) !! "themes")),
     (tt, Fixture.heap0)) ∧
  FirestoreClient.to_dict Doubles.firestore_absent 3%positive (tt, Fixture.heap0)
  = (Ok PNone, (tt, Fixture.heap0)) ∧
  (∀ l, PNone ≠ PRef l) ∧
  FirestoreClient.get_market_themes Doubles.firestore_absent "2026-01-02"
    (tt, Fixture.heap0)
  = (Ok (PList []), (tt, Fixture.heap0)).
Proof.
  assert (Hobj : Fixture.heap0 !! 3%positive = Some {[ "tier" := PStr "FREE" ]})
    by (vm_compute; reflexivity).
  assert (Hnone : ∀ l, PNone ≠ PRef l) by discriminate.
  destruct (themes_default_to_empty Doubles.firestore_bare "2026-01-02"
              (tt, Fixture.heap0)) as (_ & Hbare & _).
  destruct (themes_default_to_empty Doubles.firestore_absent "2026-01-02"
              (tt, Fixture.heap0)) as (_ & _ & Habsent).
  exact (conj eq_refl (conj eq_refl (conj Hobj
          (conj (Hbare _ _ _ _ _ _ eq_refl eq_refl Hobj)
          (conj eq_refl (conj Hnone
             (Habsent _ _ _ _ _ eq_refl eq_refl Hnone))))))).
Defined.

Lemma adapter_lets_base_exceptions_through_witness :
  FirestoreClient.stream Doubles.firestore_interrupted
    (FirestoreClient.signals_query "2026-01-02" "ALL" 7 10) (tt, Fixture.heap0)
  = (Raise (BaseOnly "KeyboardInterrupt"), (tt, Fixture.heap0)) ∧
  FirestoreClient.get_overnight_signals Doubles.firestore_interrupted
    "2026-01-02" "ALL" 7 10 (tt, Fixture.heap0)
  = (Raise (BaseOnly "KeyboardInterrupt"), (tt, Fixture.heap0)).
Proof.
  exact (conj eq_refl
           (proj1 (adapter_lets_base_exceptions_through Doubles.firestore_interrupted
                     "2026-01-02" "ALL" "FSLY" 7 10 (tt, Fixture.heap0))
              _ _ eq_refl)).
Defined.

(** ** The tools *)

Lemma heap_len_weaken (h h' : heap) (v : pyval) (n : Z) :
  h ⊆ h' → heap_len h v = Ok n → heap_len h' v = Ok n.
Proof.
  intros Hsub. destruct v as [| | | | |l]; try done. simpl.
  destruct (h !! l) as [d|] eqn:Hl; [|done].
  by rewrite (lookup_weaken _ _ _ _ Hl Hsub).
Qed.

Lemma signals_response_total tier fetched sd (h h' : heap) resp :
  signals_response tier fetched sd h h' resp →
  ∃ l d served n,
    resp = PRef l ∧ h' !! l = Some d ∧ d !! "signals" = Some served ∧
    d !! "total_signals" = Some (PInt n) ∧ heap_len h served = Ok n.
Proof.
  intros (l & d & -> & Hl & Hd & Hrest). destruct (py_eq_str tier "FREE").
  - destruct Hrest as (items & outs & u & p1 & p2 & _ & _ & -> & _).
    by eexists l, _, (PList outs), (Z.of_nat (length outs)).
  - destruct Hrest as (n & Hn & -> & _). by eexists l, _, fetched, n.
Qed.

Lemma signals_response_keys tier fetched sd (h h' : heap) resp :
  signals_response tier fetched sd h h' resp →
  ∃ l d, resp = PRef l ∧ h' !! l = Some d ∧
    dom d = if py_eq_str tier "FREE"
            then {[ "scan_date"; "total_signals"; "signals"; "upgrade" ]}
            else {[ "scan_date"; "total_signals"; "signals" ]}.
Proof.
  intros (l & d & -> & Hl & Hd & Hrest). exists l, d. do 2 (split; [done|]).
  destruct (py_eq_str tier "FREE").
  - destruct Hrest as (items & outs & u & p1 & p2 & _ & _ & -> & _).
    cbn [list_to_map foldr uncurry fst snd]. rewrite !dom_insert_L, dom_empty_L.
    set_solver.
  - destruct Hrest as (n & Hn & -> & _).
    cbn [list_to_map foldr uncurry fst snd]. rewrite !dom_insert_L, dom_empty_L.
    set_solver.
Qed.

Lemma themes_response_keys tier fetched sd (h h' : heap) resp :
  themes_response tier fetched sd h h' resp →
  ∃ l d, resp = PRef l ∧ h' !! l = Some d ∧ dom d = {[ "scan_date"; "themes" ]}.
Proof.
  intros (l & d & -> & Hl & Hd & Hrest). exists l, d. do 2 (split; [done|]).
  destruct (py_eq_str tier "FREE").
  - destruct Hrest as (items & outs & _ & _ & ->).
    cbn [list_to_map foldr uncurry fst snd]. rewrite !dom_insert_L, dom_empty_L.
    set_solver.
  - destruct Hrest as (-> & _).
    cbn [list_to_map foldr uncurry fst snd]. rewrite !dom_insert_L, dom_empty_L.
    set_solver.
Qed.

Section ToolExtras.
Context {W : Type} (cl : clients W).
Implicit Types (s : state W) (kwargs : dict).


Lemma _get_user_tier_not_mapping kwargs s v :
  kwargs !! "_user_info" = Some v → (∀ l, v ≠ PRef l) →
  ∃ s0, _get_user_tier kwargs s = (Raise AttributeError, s0) ∧ allocates_only s s0.
Proof.
  intros Hkw Hv. destruct (_get_user_tier_run kwargs s) as (l & Hl & ->).
  rewrite Hkw. simpl. eexists. split.
  - destruct v; try done. by destruct (Hv l0).
  - by apply allocates_only_insert.
Qed.

(** X10.  When the injected user info is present but is not a mapping
    ([None], say), each of the three tier-aware tools raises
    [AttributeError] before any client is called. *)
Theorem user_info_must_be_a_mapping direction min_score limit ticker date kwargs s v :
  kwargs !! "_user_info" = Some v → (∀ l, v ≠ PRef l) →
  ((get_overnight_signals cl direction min_score limit date kwargs s).1
   = Raise AttributeError ∧
   st_trace (get_overnight_signals cl direction min_score limit date kwargs s).2
   = st_trace s) ∧
  ((get_signal_detail cl ticker date kwargs s).1 = Raise AttributeError ∧
   st_trace (get_signal_detail cl ticker date kwargs s).2 = st_trace s) ∧
  ((get_market_themes cl date kwargs s).1 = Raise AttributeError ∧
   st_trace (get_market_themes cl date kwargs s).2 = st_trace s).
Proof.
  intros Hkw Hv.
  destruct (_get_user_tier_not_mapping kwargs s v Hkw Hv) as (s0 & Ht & (_ & Htr & _)).
  split; [|split].
  - by rewrite get_overnight_signals_split, bind_run, Ht.
  - unfold get_signal_detail. by rewrite bind_run, Ht.
  - by rewrite get_market_themes_split, bind_run, Ht.
Qed.

(** X11.  A date other than ["latest"] goes to the stores as it is: the
    primary call and, when there is one, the warehouse call carry the
    caller's date, whatever the clock says. *)
Theorem explicit_date_is_passed_on direction min_score limit ticker date kwargs s tier :
  (_get_user_tier kwargs s).1 = Ok tier →
  date ≠ "latest" →
  (∃ e1 rest min_score' limit',
     st_trace (get_overnight_signals cl direction min_score limit date kwargs s).2
     = st_trace s ++ e1 :: rest ∧
     ev_call e1 = FsGetOvernightSignals date direction min_score' limit' ∧
     Forall (λ e, ev_call e = BqGetOvernightSignals date direction min_score' limit')
            rest) ∧
  (py_eq_str tier "FREE" = false →
   ∃ e1 rest,
     st_trace (get_signal_detail cl ticker date kwargs s).2 = st_trace s ++ e1 :: rest ∧
     ev_call e1 = FsGetSignalDetail ticker date ∧
     Forall (λ e, ev_call e = BqGetSignalDetail ticker date) rest) ∧
  (∃ e1 rest,
     st_trace (get_market_themes cl date kwargs s).2 = st_trace s ++ e1 :: rest ∧
     ev_call e1 = FsGetMarketThemes date ∧
     Forall (λ e, ev_call e = BqGetMarketThemes date) rest).
Proof.
  intros Htier Hdate.
  assert (Hres : resolve_date date (st_today s) = date).
  { unfold resolve_date. by rewrite bool_decide_eq_false_2. }
  split; [|split].
  - destruct (get_overnight_signals cl direction min_score limit date kwargs s)
      as [r s'] eqn:Hrun.
    apply (get_overnight_signals_inv _ _ _ _ _ _ _ _ _ _ Htier) in Hrun.
    cbv zeta in Hrun. rewrite Hres in Hrun.
    apply served_trace in Hrun as (e1 & rest & Htr & Hc1 & Hrest).
    by eexists e1, rest, _, _.
  - intros Hpaid.
    destruct (get_signal_detail cl ticker date kwargs s) as [r s'] eqn:Hrun.
    destruct (get_signal_detail_inv cl _ _ _ _ _ _ _ Htier Hpaid Hrun) as (e1 & Hc1 & H1).
    rewrite Hres in Hc1. cbn [snd]. destruct (ev_result e1) as [v1|x].
    + destruct (py_truthy (ev_heap e1) v1).
      * destruct H1 as (_ & Htr & _). by exists e1, [].
      * destruct H1 as (e2 & Hc2 & Htr & _). exists e1, [e2].
        repeat split; try done. by constructor.
    + destruct H1 as (_ & Htr & _). by exists e1, [].
  - destruct (get_market_themes cl date kwargs s) as [r s'] eqn:Hrun.
    apply (get_market_themes_inv _ _ _ _ _ _ _ Htier) in Hrun. cbv zeta in Hrun.
    rewrite Hres in Hrun.
    apply served_trace in Hrun as (e1 & rest & Htr & Hc1 & Hrest).
    by exists e1, rest.
Qed.

(** X7.  The tools catch nothing: when the last client called raises, be it
    the primary store or the warehouse, the tool ends with that very
    exception. *)
Theorem client_exceptions_reach_the_caller
    direction min_score limit ticker date kwargs s tier :
  (_get_user_tier kwargs s).1 = Ok tier →
  (∀ r s',
     get_overnight_signals cl direction min_score limit date kwargs s = (r, s') →
     ∃ evs elast, st_trace s' = st_trace s ++ evs ∧ last evs = Some elast ∧
       ∀ x, ev_result elast = Raise x → r = Raise x) ∧
  (py_eq_str tier "FREE" = false →
   ∀ r s',
     get_signal_detail cl ticker date kwargs s = (r, s') →
     ∃ evs elast, st_trace s' = st_trace s ++ evs ∧ last evs = Some elast ∧
       ∀ x, ev_result elast = Raise x → r = Raise x) ∧
  (∀ r s',
     get_market_themes cl date kwargs s = (r, s') →
     ∃ evs elast, st_trace s' = st_trace s ++ evs ∧ last evs = Some elast ∧
       ∀ x, ev_result elast = Raise x → r = Raise x).
Proof.
  intros Htier.
  assert (Hserved : ∀ c1 c2 key qd response r s',
            served c1 c2 key qd response s r s' →
            ∃ evs elast, st_trace s' = st_trace s ++ evs ∧ last evs = Some elast ∧
              ∀ x, ev_result elast = Raise x → r = Raise x).
  { intros c1 c2 key qd response r s'
      (e1 & evs & elast & _ & Htr & Hlast & _ & _ & Hcases).
    exists evs, elast. do 2 (split; [done|]). intros x Hx.
    destruct Hcases as [[-> Hr]|(v & e2 & -> & _ & _ & _ & Hr)];
      injection Hlast as <-.
    - by rewrite Hx in Hr.
    - unfold fallback_payload in Hr. by rewrite Hx in Hr. }
  split; [|split].
  - intros r s' Hrun.
    apply (get_overnight_signals_inv _ _ _ _ _ _ _ _ _ _ Htier) in Hrun.
    by eapply Hserved.
  - intros Hpaid r s' Hrun.
    destruct (get_signal_detail_inv cl _ _ _ _ _ _ _ Htier Hpaid Hrun) as (e1 & Hc1 & H1).
    destruct (ev_result e1) as [v1|x1] eqn:He1.
    + destruct (py_truthy (ev_heap e1) v1).
      * destruct H1 as (_ & Htr & _). exists [e1], e1. do 2 (split; [done|]).
        intros x. by rewrite He1.
      * destruct H1 as (e2 & _ & Htr & H2). exists [e1; e2], e2.
        do 2 (split; [done|]). intros x Hx. rewrite Hx in H2. by destruct H2.
    + destruct H1 as (-> & Htr & _). exists [e1], e1. do 2 (split; [done|]).
      intros x. rewrite He1. by intros [= ->].
  - intros r s' Hrun.
    apply (get_market_themes_inv _ _ _ _ _ _ _ Htier) in Hrun.
    by eapply Hserved.
Qed.

(** X8.  In every response of [get_overnight_signals] the ["total_signals"]
    entry is the length of the ["signals"] entry of that same response:
    for a FREE caller the number of stripped copies served. *)
Theorem total_signals_counts_served direction min_score limit date kwargs s tier resp s' :
  (_get_user_tier kwargs s).1 = Ok tier →
  get_overnight_signals cl direction min_score limit date kwargs s = (Ok resp, s') →
  ∃ l d served n,
    resp = PRef l ∧ st_heap s' !! l = Some d ∧
    d !! "signals" = Some served ∧ d !! "total_signals" = Some (PInt n) ∧
    heap_len (st_heap s') served = Ok n.
Proof.
  intros Htier Hrun.
  apply (get_overnight_signals_inv _ _ _ _ _ _ _ _ _ _ Htier) in Hrun. cbv zeta in Hrun.
  apply served_response in Hrun as (elast & fetched & sd & _ & Hsub & _ & Hresp);
    [|done..].
  apply signals_response_total in Hresp as (l & d & served & n & -> & Hd & Hs & Ht & Hn).
  exists l, d, served, n. do 4 (split; [done|]). by eapply heap_len_weaken.
Qed.

(** X16.  A response of [get_overnight_signals] has exactly the entries
    ["scan_date"], ["total_signals"] and ["signals"], and ["upgrade"] as
    well exactly for a FREE caller.  A response of [get_market_themes] has
    exactly ["scan_date"] and ["themes"] for every tier: the themes carry no
    upgrade block. *)
Theorem response_entries direction min_score limit date kwargs s tier :
  (_get_user_tier kwargs s).1 = Ok tier →
  (∀ resp s',
     get_overnight_signals cl direction min_score limit date kwargs s = (Ok resp, s') →
     ∃ l d, resp = PRef l ∧ st_heap s' !! l = Some d ∧
       dom d = if py_eq_str tier "FREE"
               then {[ "scan_date"; "total_signals"; "signals"; "upgrade" ]}
               else {[ "scan_date"; "total_signals"; "signals" ]}) ∧
  (∀ resp s',
     get_market_themes cl date kwargs s = (Ok resp, s') →
     ∃ l d, resp = PRef l ∧ st_heap s' !! l = Some d ∧
       dom d = {[ "scan_date"; "themes" ]}).
Proof.
  intros Htier. split.
  - intros resp s' Hrun.
    apply (get_overnight_signals_inv _ _ _ _ _ _ _ _ _ _ Htier) in Hrun.
    cbv zeta in Hrun.
    apply served_response in Hrun as (elast & fetched & sd & _ & _ & _ & Hresp);
      [|done..].
    by apply signals_response_keys in Hresp.
  - intros resp s' Hrun.
    apply (get_market_themes_inv _ _ _ _ _ _ _ Htier) in Hrun. cbv zeta in Hrun.
    apply served_response in Hrun as (elast & fetched & sd & _ & _ & _ & Hresp);
      [|done..].
    by apply themes_response_keys in Hresp.
Qed.


Lemma served_fallback c1 c2 key qd response s r s' (elast : event) :
  is_primary c1 = true →
  served c1 c2 key qd response s r s' →
  last (st_trace s') = Some elast → is_primary (ev_call elast) = false →
  ev_call elast = c2 ∧ ev_heap elast ⊆ st_heap s' ∧
  match fallback_payload key qd elast with
  | Raise x => r = Raise x
  | Ok (found, scan_date) =>
      ∀ resp, r = Ok resp → response found scan_date (ev_heap elast) (st_heap s') resp
  end.
Proof.
  intros Hp1 (e1 & evs & elast0 & Hc1 & Htr & Hlast & Hsub & _ & Hcases) Hl Hnp.
  rewrite Htr, last_app, Hlast in Hl. injection Hl as ->.
  destruct Hcases as [[-> Hr]|(v & e2 & -> & _ & _ & Hc2 & Hr)];
    injection Hlast as <-.
  - congruence.
  - done.
Qed.

(** X13.  When the warehouse is consulted and answers with something that
    is not a mapping ([None], a list), [get_overnight_signals] and
    [get_market_themes] raise [AttributeError]. *)
Theorem warehouse_answer_must_be_a_mapping direction min_score limit date kwargs s tier :
  (_get_user_tier kwargs s).1 = Ok tier →
  (∀ r s' elast v,
     get_overnight_signals cl direction min_score limit date kwargs s = (r, s') →
     last (st_trace s') = Some elast → is_primary (ev_call elast) = false →
     ev_result elast = Ok v → (∀ l, v ≠ PRef l) →
     r = Raise AttributeError) ∧
  (∀ r s' elast v,
     get_market_themes cl date kwargs s = (r, s') →
     last (st_trace s') = Some elast → is_primary (ev_call elast) = false →
     ev_result elast = Ok v → (∀ l, v ≠ PRef l) →
     r = Raise AttributeError).
Proof.
  intros Htier.
  assert (Hpay : ∀ key qd (elast : event) v,
            ev_result elast = Ok v → (∀ l, v ≠ PRef l) →
            fallback_payload key qd elast = Raise AttributeError).
  { intros key qd elast v Hv Hne. unfold fallback_payload. rewrite Hv.
    destruct v; try done. by destruct (Hne l). }
  split; intros r s' elast v Hrun Hlast Hnp Hv Hne.
  - apply (get_overnight_signals_inv _ _ _ _ _ _ _ _ _ _ Htier) in Hrun.
    cbv zeta in Hrun.
    apply (served_fallback _ _ _ _ _ _ _ _ elast) in Hrun as (_ & _ & Hr); [|done..].
    by rewrite (Hpay _ _ _ _ Hv Hne) in Hr.
  - apply (get_market_themes_inv _ _ _ _ _ _ _ Htier) in Hrun. cbv zeta in Hrun.
    apply (served_fallback _ _ _ _ _ _ _ _ elast) in Hrun as (_ & _ & Hr); [|done..].
    by rewrite (Hpay _ _ _ _ Hv Hne) in Hr.
Qed.

(** X12.  When the warehouse's mapping has no ["signals"] entry, the
    response of [get_overnight_signals] serves the empty list and a total
    of 0; when it has no ["scan_date"] entry, the response keeps the date
    the primary store was asked for; a ["scan_date"] it does have is the one
    served. *)
Theorem warehouse_missing_entries
    direction min_score limit date kwargs s tier resp s' elast b m :
  (_get_user_tier kwargs s).1 = Ok tier →
  get_overnight_signals cl direction min_score limit date kwargs s = (Ok resp, s') →
  last (st_trace s') = Some elast → is_primary (ev_call elast) = false →
  ev_result elast = Ok (PRef b) → ev_heap elast !! b = Some m →
  ∃ l d,
    resp = PRef l ∧ st_heap s' !! l = Some d ∧
    (m !! "signals" = None →
     d !! "signals" = Some (PList []) ∧ d !! "total_signals" = Some (PInt 0)) ∧
    (m !! "scan_date" = None →
     d !! "scan_date" = Some (PStr (resolve_date date (st_today s)))) ∧
    (∀ sd, m !! "scan_date" = Some sd → d !! "scan_date" = Some sd).
Proof.
  intros Htier Hrun Hlast Hnp Hres Hm.
  apply (get_overnight_signals_inv _ _ _ _ _ _ _ _ _ _ Htier) in Hrun.
  cbv zeta in Hrun.
  apply (served_fallback _ _ _ _ _ _ _ _ elast) in Hrun as (_ & _ & Hr); [|done..].
  unfold fallback_payload in Hr. rewrite Hres in Hr. cbn [heap_get] in Hr.
  rewrite Hm in Hr. specialize (Hr resp eq_refl).
  pose proof (signals_response_total _ _ _ _ _ _ Hr)
    as (l' & d' & served & n & Hl' & Hd' & Hs' & Ht' & Hn').
  apply signals_response_lookup in Hr as (l & d & -> & _ & Hd & Hscan & Hrest).
  injection Hl' as <-. assert (d' = d) as -> by congruence.
  exists l, d. do 2 (split; [done|]). split; [|split].
  - intros Hnone. rewrite Hnone in Hrest. cbn [default] in Hrest.
    assert (Hserved : d !! "signals" = Some (PList [])).
    { destruct (py_eq_str tier "FREE").
      - destruct Hrest as (items & outs & [= <-] & Hall & Hsig & _).
        apply Forall2_nil_inv_l in Hall as ->. done.
      - by destruct Hrest. }
    split; [done|]. rewrite Hserved in Hs'. injection Hs' as <-.
    cbn in Hn'. by injection Hn' as <-.
  - intros Hnone. by rewrite Hnone in Hscan.
  - intros sd Hsd. by rewrite Hsd in Hscan.
Qed.

Lemma get_overnight_signals_responds direction min_score limit date kwargs s tier resp s' :
  (_get_user_tier kwargs s).1 = Ok tier →
  get_overnight_signals cl direction min_score limit date kwargs s = (Ok resp, s') →
  ∃ signals scan_date s1, respond_signals tier signals scan_date s1 = (Ok resp, s').
Proof.
  intros Htier. rewrite get_overnight_signals_split, bind_run.
  destruct (_get_user_tier kwargs s) as [rt s0] eqn:Ht0. simpl in Htier. subst rt.
  cbv zeta. rewrite bind_run.
  match goal with |- context [fetch cl ?c1 ?c2 ?k ?q s0] =>
    destruct (fetch cl c1 c2 k q s0) as [[[signals sd]|x] s1] end; [|done].
  intros Hrun. by exists signals, sd, s1.
Qed.

Lemma respond_signals_upgrade signals sd s resp s' :
  respond_signals (PStr "FREE") signals sd s = (Ok resp, s') →
  ∃ l d u du p1 p2 n,
    resp = PRef l ∧ st_heap s' !! l = Some d ∧
    d !! "total_signals" = Some (PInt n) ∧ d !! "upgrade" = Some (PRef u) ∧
    st_heap s' !! u = Some du ∧
    du = list_to_map [("message", PStr (upgrade_message n));
                      ("plans", PList [PRef p1; PRef p2])] ∧
    st_heap s' !! p1
    = Some (list_to_map [("name", PStr "The Overnight Edge");
                         ("price", PStr "$49/mo"); ("url", PStr pricing_url)]) ∧
    st_heap s' !! p2
    = Some (list_to_map [("name", PStr "The War Room");
                         ("price", PStr "$149/mo"); ("url", PStr pricing_url)]).
Proof.
  unfold respond_signals. cbn [py_eq_str]. rewrite bool_decide_eq_true_2 by done.
  rewrite !bind_run, py_iter_run.
  destruct (heap_iter (st_heap s) signals) as [items|x]; [|done].
  rewrite bind_run.
  destruct (for_append strip_signal items s) as [[outs|x] sa]; [|done].
  rewrite ret_run, bind_run, py_len_run. cbn [heap_len]. rewrite bind_run.
  match goal with |- context [new_dict ?i sa] =>
    destruct (new_dict_run i sa) as (l & -> & Hl) end.
  rewrite !bind_run, py_len_run. cbn [heap_len]. rewrite bind_run.
  set (d0 := list_to_map [("scan_date", sd); _; _]) in *.
  do 3 (match goal with |- context [new_dict ?i ?st] =>
          let p := fresh "p" in let Hp := fresh "Hp" in
          destruct (new_dict_run i st) as (p & -> & Hp); cbn [st_heap set_heap] in Hp
        end; rewrite ?bind_run).
  unfold py_setitem, update_heap, heap_setitem. cbn [st_heap set_heap].
  apply lookup_insert_None in Hp as [Hp Hlp].
  apply lookup_insert_None in Hp0 as [Hp0 Hpp0]. apply lookup_insert_None in Hp0 as [Hp0 Hlp0].
  apply lookup_insert_None in Hp1 as [Hp1 Hp0p1]. apply lookup_insert_None in Hp1 as [Hp1 Hpp1].
  apply lookup_insert_None in Hp1 as [Hp1 Hlp1].
  rewrite !lookup_insert_ne, lookup_insert_eq by done.
  rewrite ret_run. intros [= <- <-]. cbn [st_heap set_heap].
  eexists l, _, p1, _, p, p0, (Z.of_nat (length outs)).
  split; [done|]. split; [apply lookup_insert_eq|].
  split; [done|]. split; [done|].
  split; [rewrite lookup_insert_ne by done; apply lookup_insert_eq|].
  split; [done|]. split.
  - rewrite !lookup_insert_ne by done. apply lookup_insert_eq.
  - rewrite !lookup_insert_ne by done. apply lookup_insert_eq.
Qed.

(** X9.  The response to a FREE caller carries an ["upgrade"] mapping whose
    ["message"] states the number of signals served, the same number as
    ["total_signals"], and whose ["plans"] are two mappings: The Overnight
    Edge at $49/mo and The War Room at $149/mo, each with the pricing
    address. *)
Theorem free_response_has_upgrade_block
    direction min_score limit date kwargs s resp s' :
  (_get_user_tier kwargs s).1 = Ok (PStr "FREE") →
  get_overnight_signals cl direction min_score limit date kwargs s = (Ok resp, s') →
  ∃ l d u du p1 p2 n,
    resp = PRef l ∧ st_heap s' !! l = Some d ∧
    d !! "total_signals" = Some (PInt n) ∧ d !! "upgrade" = Some (PRef u) ∧
    st_heap s' !! u = Some du ∧
    du = list_to_map [("message", PStr (upgrade_message n));
                      ("plans", PList [PRef p1; PRef p2])] ∧
    st_heap s' !! p1
    = Some (list_to_map [("name", PStr "The Overnight Edge");
                         ("price", PStr "$49/mo"); ("url", PStr pricing_url)]) ∧
    st_heap s' !! p2
    = Some (list_to_map [("name", PStr "The War Room");
                         ("price", PStr "$149/mo"); ("url", PStr pricing_url)]).
Proof.
  intros Htier Hrun.
  destruct (get_overnight_signals_responds _ _ _ _ _ _ _ _ _ Htier Hrun)
    as (signals & sd & s1 & Hresp).
  by apply respond_signals_upgrade in Hresp.
Qed.

(** The first call of a run, with what the client made of it. *)
Lemma fetch_first_result c1 c2 key qd s r s' :
  fetch cl c1 c2 key qd s = (r, s') →
  ∃ e1 rest,
    st_trace s' = st_trace s ++ e1 :: rest ∧ ev_call e1 = c1 ∧
    ev_result e1 = (dispatch cl c1 (st_world s, st_heap s)).1.
Proof.
  unfold fetch. rewrite bind_run. unfold invoke at 1.
  destruct (dispatch cl c1 (st_world s, st_heap s)) as [r1 [w1 h1]] eqn:Hd1.
  destruct r1 as [v|x].
  - rewrite bind_run, py_not_run; simpl.
    destruct (py_truthy h1 v) eqn:Ht; simpl.
    + rewrite ret_run. intros [= <- <-]. by eexists (Event _ _ _ _), [].
    + rewrite bind_run. unfold invoke at 1. simpl.
      destruct (dispatch cl c2 (w1, h1)) as [r2 [w2 h2]] eqn:Hd2.
      intros Hrun.
      exists (Event c1 (st_heap s) (Ok v) h1), [Event c2 h1 r2 h2].
      split; [|done]. revert Hrun. rewrite <- app_assoc; simpl.
      destruct r2 as [b|x]; [|by intros [= <- <-]].
      rewrite bind_run, py_get_run; simpl.
      destruct (heap_get h2 b key (PList [])) as [f|x]; [|by intros [= <- <-]].
      rewrite bind_run, py_get_run; simpl.
      destruct (heap_get h2 b "scan_date" (PStr qd)) as [d|x]; by intros [= <- <-].
  - intros [= <- <-]. by eexists (Event _ _ _ _), [].
Qed.

Lemma get_overnight_signals_first_result
    direction min_score limit date kwargs s tier r s' :
  (_get_user_tier kwargs s).1 = Ok tier →
  get_overnight_signals cl direction min_score limit date kwargs s = (r, s') →
  ∃ e1 rest st,
    st_trace s' = st_trace s ++ e1 :: rest ∧ is_primary (ev_call e1) = true ∧
    ev_result e1 = (dispatch cl (ev_call e1) st).1.
Proof.
  intros Htier. rewrite get_overnight_signals_split, bind_run.
  destruct (_get_user_tier kwargs s) as [rt s0] eqn:Ht0. simpl in Htier. subst rt.
  apply _get_user_tier_allocates in Ht0 as (_ & Htr & _ & _).
  cbv zeta. rewrite bind_run.
  match goal with |- context [fetch cl ?c1 ?c2 ?k ?q s0] =>
    destruct (fetch cl c1 c2 k q s0) as [rf s1] eqn:Hf end.
  apply fetch_first_result in Hf as (e1 & rest & Htr1 & Hc1 & Hr1).
  rewrite Htr in Htr1. rewrite <- Hc1 in Hr1.
  destruct rf as [[signals sd]|x].
  - intros Hrun. apply respond_signals_inv in Hrun as [(_ & Htr' & _) _].
    exists e1, rest, (st_world s0, st_heap s0). rewrite Htr'.
    repeat split; try done. by rewrite Hc1.
  - intros [= <- <-]. exists e1, rest, (st_world s0, st_heap s0).
    repeat split; try done. by rewrite Hc1.
Qed.

Lemma get_market_themes_first_result date kwargs s tier r s' :
  (_get_user_tier kwargs s).1 = Ok tier →
  get_market_themes cl date kwargs s = (r, s') →
  ∃ e1 rest st,
    st_trace s' = st_trace s ++ e1 :: rest ∧ is_primary (ev_call e1) = true ∧
    ev_result e1 = (dispatch cl (ev_call e1) st).1.
Proof.
  intros Htier. rewrite get_market_themes_split, bind_run.
  destruct (_get_user_tier kwargs s) as [rt s0] eqn:Ht0. simpl in Htier. subst rt.
  apply _get_user_tier_allocates in Ht0 as (_ & Htr & _ & _).
  cbv zeta. rewrite bind_run.
  match goal with |- context [fetch cl ?c1 ?c2 ?k ?q s0] =>
    destruct (fetch cl c1 c2 k q s0) as [rf s1] eqn:Hf end.
  apply fetch_first_result in Hf as (e1 & rest & Htr1 & Hc1 & Hr1).
  rewrite Htr in Htr1. rewrite <- Hc1 in Hr1.
  destruct rf as [[themes sd]|x].
  - intros Hrun. apply respond_themes_inv in Hrun as [(_ & Htr' & _) _].
    exists e1, rest, (st_world s0, st_heap s0). rewrite Htr'.
    repeat split; try done. by rewrite Hc1.
  - intros [= <- <-]. exists e1, rest, (st_world s0, st_heap s0).
    repeat split; try done. by rewrite Hc1.
Qed.

Lemma get_signal_detail_first_result ticker date kwargs s tier r s' :
  (_get_user_tier kwargs s).1 = Ok tier →
  py_eq_str tier "FREE" = false →
  get_signal_detail cl ticker date kwargs s = (r, s') →
  ∃ e1 rest st,
    st_trace s' = st_trace s ++ e1 :: rest ∧ is_primary (ev_call e1) = true ∧
    ev_result e1 = (dispatch cl (ev_call e1) st).1.
Proof.
  intros Htier Hfree. unfold get_signal_detail. rewrite bind_run.
  destruct (_get_user_tier kwargs s) as [rt s0] eqn:Ht0. simpl in Htier. subst rt.
  apply _get_user_tier_allocates in Ht0 as (_ & Htr & Htd & _). rewrite Hfree.
  rewrite bind_run.
  assert (Hqd : (if bool_decide (date = "latest") then now_strftime else mret date) s0
                = (Ok (resolve_date date (st_today s)), s0)).
  { unfold resolve_date. rewrite <- Htd. by destruct (bool_decide _). }
  rewrite Hqd. clear Hqd. rewrite bind_run. unfold invoke at 1.
  destruct (dispatch cl (FsGetSignalDetail ticker (resolve_date date (st_today s)))
              (st_world s0, st_heap s0)) as [r1 [w1 h1]] eqn:Hd1.
  rewrite Htr.
  set (e1 := Event (FsGetSignalDetail ticker (resolve_date date (st_today s)))
                   (st_heap s0) r1 h1).
  assert (He1 : ev_result e1 = (dispatch cl (ev_call e1) (st_world s0, st_heap s0)).1)
    by (unfold e1; cbn [ev_result ev_call]; by rewrite Hd1).
  destruct r1 as [v1|x]; [|intros [= <- <-]; by exists e1, [], (st_world s0, st_heap s0)].
  rewrite bind_run, py_not_run. cbn [st_heap].
  destruct (py_truthy h1 v1) eqn:Ht1; cbv [negb].
  - rewrite bind_run, ret_run, bind_run, py_not_run. cbn [st_heap]. rewrite Ht1. cbv [negb].
    rewrite ret_run. intros [= <- <-]. by exists e1, [], (st_world s0, st_heap s0).
  - rewrite bind_run.
    match goal with |- context [invoke cl ?c ?st] =>
      destruct (invoke cl c st) as [r2 s2] eqn:Hi2 end.
    apply invoke_inv in Hi2 as [Htr2 _]. cbn [st_trace st_heap] in Htr2.
    rewrite <- app_assoc in Htr2. simpl in Htr2.
    intros Hrun.
    exists e1, [Event (BqGetSignalDetail ticker date) h1 r2 (st_heap s2)],
      (st_world s0, st_heap s0).
    split; [|done].
    revert Hrun. destruct r2 as [v2|x]; [|by intros [= <- <-]].
    rewrite bind_run, py_not_run.
    destruct (py_truthy (st_heap s2) v2); cbv [negb].
    + rewrite ret_run. by intros [= <- <-].
    + match goal with |- context [new_dict ?i ?st] =>
        destruct (new_dict_run i st) as (l & -> & Hl) end.
      by intros [= <- <-].
Qed.
End ToolExtras.

Section Outage.
Context {W Doc : Type} (fs_client : FirestoreClient.firestore W Doc).
Context (bq_signals : string → string → Z → Z → ST (W * heap) pyval)
        (bq_detail : string → string → ST (W * heap) pyval)
        (bq_themes : string → ST (W * heap) pyval)
        (bq_movers : Z → ST (W * heap) pyval).

Lemma outage_primary_results (c : call) st :
  (∀ q st0, ∃ name st1,
     FirestoreClient.stream fs_client q st0 = (Raise (Exception name), st1)) →
  is_primary c = true →
  (dispatch (module_clients fs_client bq_signals bq_detail bq_themes bq_movers) c st).1
  = Ok match c with FsGetSignalDetail _ _ => PNone | _ => PList [] end.
Proof.
  intros Hdown. destruct c; try done; intros _; simpl.
  - destruct (Hdown (FirestoreClient.signals_query date direction min_score limit) st)
      as (name & st1 & Hs).
    unfold FirestoreClient.get_overnight_signals.
    erewrite try_except_caught; [done|].
    unfold FirestoreClient.get_overnight_signals_try. by rewrite bind_run, Hs.
  - destruct (Hdown (FirestoreClient.detail_query ticker date) st) as (name & st1 & Hs).
    unfold FirestoreClient.get_signal_detail.
    erewrite try_except_caught; [done|].
    unfold FirestoreClient.get_signal_detail_try. by rewrite bind_run, Hs.
  - destruct (Hdown (FirestoreClient.themes_query date) st) as (name & st1 & Hs).
    unfold FirestoreClient.get_market_themes.
    erewrite try_except_caught; [done|].
    unfold FirestoreClient.get_market_themes_try. by rewrite bind_run, Hs.
Qed.

(** X14.  With the real primary client, a Firestore library whose queries
    all fail with an [Exception] never stops a tool: the primary call
    answers with the empty list (with [None] for a detail), and the
    warehouse is then consulted, so that the run makes exactly the two
    calls. *)
Theorem store_outage_falls_back direction min_score limit ticker date kwargs s tier :
  (∀ q st0, ∃ name st1,
     FirestoreClient.stream fs_client q st0 = (Raise (Exception name), st1)) →
  (_get_user_tier kwargs s).1 = Ok tier →
  (∃ e1 e2 min_score' limit',
     st_trace (get_overnight_signals
                 (module_clients fs_client bq_signals bq_detail bq_themes bq_movers)
                 direction min_score limit date kwargs s).2
     = st_trace s ++ [e1; e2] ∧
     ev_result e1 = Ok (PList []) ∧
     ev_call e2 = BqGetOvernightSignals date direction min_score' limit') ∧
  (py_eq_str tier "FREE" = false →
   ∃ e1 e2,
     st_trace (get_signal_detail
                 (module_clients fs_client bq_signals bq_detail bq_themes bq_movers)
                 ticker date kwargs s).2
     = st_trace s ++ [e1; e2] ∧
     ev_result e1 = Ok PNone ∧ ev_call e2 = BqGetSignalDetail ticker date) ∧
  (∃ e1 e2,
     st_trace (get_market_themes
                 (module_clients fs_client bq_signals bq_detail bq_themes bq_movers)
                 date kwargs s).2
     = st_trace s ++ [e1; e2] ∧
     ev_result e1 = Ok (PList []) ∧ ev_call e2 = BqGetMarketThemes date).
Proof.
  intros Hdown Htier.
  set (cl := module_clients fs_client bq_signals bq_detail bq_themes bq_movers).
  split; [|split].
  - destruct (get_overnight_signals cl direction min_score limit date kwargs s)
      as [r s'] eqn:Hrun. cbn [snd].
    destruct (get_overnight_signals_first_result cl _ _ _ _ _ _ _ _ _ Htier Hrun)
      as (e1 & rest & st & Htr1 & Hp1 & Hr1).
    rewrite (outage_primary_results _ _ Hdown Hp1) in Hr1.
    apply (get_overnight_signals_inv _ _ _ _ _ _ _ _ _ _ Htier) in Hrun.
    cbv zeta in Hrun.
    destruct Hrun as (e1' & evs & elast & Hc1 & Htr & _ & _ & _ & Hcases).
    rewrite Htr in Htr1. apply app_inv_head in Htr1.
    destruct Hcases as [[-> Hr]|(v & e2 & -> & _ & _ & Hc2 & _)];
      injection Htr1 as -> <-.
    + rewrite Hr1, Hc1 in Hr. by destruct Hr.
    + rewrite Hc1 in Hr1. by eexists e1, e2, _, _.
  - intros Hpaid.
    destruct (get_signal_detail cl ticker date kwargs s) as [r s'] eqn:Hrun. cbn [snd].
    destruct (get_signal_detail_first_result cl _ _ _ _ _ _ _ Htier Hpaid Hrun)
      as (e1 & rest & st & Htr1 & Hp1 & Hr1).
    rewrite (outage_primary_results _ _ Hdown Hp1) in Hr1.
    destruct (get_signal_detail_inv cl _ _ _ _ _ _ _ Htier Hpaid Hrun)
      as (e1' & Hc1 & H1).
    assert (e1' = e1) as ->.
    { destruct (ev_result e1') as [v1|x].
      - destruct (py_truthy (ev_heap e1') v1).
        + destruct H1 as (_ & Htr & _). rewrite Htr in Htr1.
          apply app_inv_head in Htr1. by injection Htr1.
        + destruct H1 as (e2 & _ & Htr & _). rewrite Htr in Htr1.
          apply app_inv_head in Htr1. by injection Htr1.
      - destruct H1 as (_ & Htr & _). rewrite Htr in Htr1.
        apply app_inv_head in Htr1. by injection Htr1. }
    rewrite Hc1 in Hr1. rewrite Hr1 in H1. cbn [py_truthy] in H1.
    destruct H1 as (e2 & Hc2 & Htr & _). by exists e1, e2.
  - destruct (get_market_themes cl date kwargs s) as [r s'] eqn:Hrun. cbn [snd].
    destruct (get_market_themes_first_result cl _ _ _ _ _ _ Htier Hrun)
      as (e1 & rest & st & Htr1 & Hp1 & Hr1).
    rewrite (outage_primary_results _ _ Hdown Hp1) in Hr1.
    apply (get_market_themes_inv _ _ _ _ _ _ _ Htier) in Hrun. cbv zeta in Hrun.
    destruct Hrun as (e1' & evs & elast & Hc1 & Htr & _ & _ & _ & Hcases).
    rewrite Htr in Htr1. apply app_inv_head in Htr1.
    destruct Hcases as [[-> Hr]|(v & e2 & -> & _ & _ & Hc2 & _)];
      injection Htr1 as -> <-.
    + rewrite Hr1, Hc1 in Hr. by destruct Hr.
    + rewrite Hc1 in Hr1. by exists e1, e2.
Qed.
End Outage.

(** ** These properties at the test doubles *)

Lemma client_exceptions_reach_the_caller_witness :
  (_get_user_tier Fixture.kwargs_edge Fixture.s0).1 = Ok (PStr "EDGE") ∧
  ∃ evs elast,
    st_trace Doubles.raising_signals.2 = st_trace Fixture.s0 ++ evs ∧
    last evs = Some elast ∧
    ∀ x, ev_result elast = Raise x → Doubles.raising_signals.1 = Raise x.
Proof.
  assert (Hedge : (_get_user_tier Fixture.kwargs_edge Fixture.s0).1 = Ok (PStr "EDGE"))
    by (vm_compute; reflexivity).
  exact (conj Hedge
           (proj1 (client_exceptions_reach_the_caller Doubles.mock_warehouse_raises
                     "ALL" 5 20 "FSLY" "latest" Fixture.kwargs_edge Fixture.s0 _ Hedge)
              _ _ (surjective_pairing Doubles.raising_signals))).
Defined.

Lemma total_signals_counts_served_witness :
  (_get_user_tier Fixture.kwargs_free Fixture.s0).1 = Ok (PStr "FREE") ∧
  Fixture.free_signals_hit = (Ok (PRef 12), Fixture.free_signals_hit.2) ∧
  ∃ l d served n,
    PRef 12 = PRef l ∧ st_heap Fixture.free_signals_hit.2 !! l = Some d ∧
    d !! "signals" = Some served ∧ d !! "total_signals" = Some (PInt n) ∧
    heap_len (st_heap Fixture.free_signals_hit.2) served = Ok n.
Proof.
  assert (Hfree : (_get_user_tier Fixture.kwargs_free Fixture.s0).1 = Ok (PStr "FREE"))
    by (vm_compute; reflexivity).
  assert (Hrun : Fixture.free_signals_hit = (Ok (PRef 12), Fixture.free_signals_hit.2))
    by (vm_compute; reflexivity).
  exact (conj Hfree (conj Hrun
           (total_signals_counts_served Fixture.mock_hit "ALL" 5 10 "latest"
              Fixture.kwargs_free Fixture.s0 _ _ _ Hfree Hrun))).
Defined.

Lemma free_response_has_upgrade_block_witness :
  (_get_user_tier Fixture.kwargs_free Fixture.s0).1 = Ok (PStr "FREE") ∧
  Fixture.free_signals_hit = (Ok (PRef 12), Fixture.free_signals_hit.2) ∧
  ∃ l d u du p1 p2 n,
    PRef 12 = PRef l ∧ st_heap Fixture.free_signals_hit.2 !! l = Some d ∧
    d !! "total_signals" = Some (PInt n) ∧ d !! "upgrade" = Some (PRef u) ∧
    st_heap Fixture.free_signals_hit.2 !! u = Some du ∧
    du = list_to_map [("message", PStr (upgrade_message n));
                      ("plans", PList [PRef p1; PRef p2])] ∧
    st_heap Fixture.free_signals_hit.2 !! p1
    = Some (list_to_map [("name", PStr "The Overnight Edge");
                         ("price", PStr "$49/mo"); ("url", PStr pricing_url)]) ∧
    st_heap Fixture.free_signals_hit.2 !! p2
    = Some (list_to_map [("name", PStr "The War Room");
                         ("price", PStr "$149/mo"); ("url", PStr pricing_url)]).
Proof.
  assert (Hfree : (_get_user_tier Fixture.kwargs_free Fixture.s0).1 = Ok (PStr "FREE"))
    by (vm_compute; reflexivity).
  assert (Hrun : Fixture.free_signals_hit = (Ok (PRef 12), Fixture.free_signals_hit.2))
    by (vm_compute; reflexivity).
  exact (conj Hfree (conj Hrun
           (free_response_has_upgrade_block Fixture.mock_hit "ALL" 5 10 "latest"
              Fixture.kwargs_free Fixture.s0 _ _ Hfree Hrun))).
Defined.

Lemma user_info_must_be_a_mapping_witness :
  Doubles.kwargs_none_info !! "_user_info" = Some PNone ∧
  (∀ l, PNone ≠ PRef l) ∧
  ((get_overnight_signals Fixture.mock_hit "ALL" 5 20 "latest"
      Doubles.kwargs_none_info Fixture.s0).1 = Raise AttributeError ∧
   st_trace (get_overnight_signals Fixture.mock_hit "ALL" 5 20 "latest"
               Doubles.kwargs_none_info Fixture.s0).2 = st_trace Fixture.s0) ∧
  ((get_signal_detail Fixture.mock_hit "FSLY" "latest"
      Doubles.kwargs_none_info Fixture.s0).1 = Raise AttributeError ∧
   st_trace (get_signal_detail Fixture.mock_hit "FSLY" "latest"
               Doubles.kwargs_none_info Fixture.s0).2 = st_trace Fixture.s0) ∧
  ((get_market_themes Fixture.mock_hit "latest"
      Doubles.kwargs_none_info Fixture.s0).1 = Raise AttributeError ∧
   st_trace (get_market_themes Fixture.mock_hit "latest"
               Doubles.kwargs_none_info Fixture.s0).2 = st_trace Fixture.s0).
Proof.
  assert (Hkw : Doubles.kwargs_none_info !! "_user_info" = Some PNone)
    by (vm_compute; reflexivity).
  assert (Hnone : ∀ l, PNone ≠ PRef l) by discriminate.
  exact (conj Hkw (conj Hnone
           (user_info_must_be_a_mapping Fixture.mock_hit "ALL" 5 20 "FSLY" "latest"
              Doubles.kwargs_none_info Fixture.s0 _ Hkw Hnone))).
Defined.

Lemma explicit_date_is_passed_on_witness :
  (_get_user_tier Fixture.kwargs_edge Fixture.s0).1 = Ok (PStr "EDGE") ∧
  "2026-01-05" ≠ "latest" ∧
  ∃ e1 rest min_score' limit',
    st_trace (get_overnight_signals Fixture.mock_miss "ALL" 5 20 "2026-01-05"
                Fixture.kwargs_edge Fixture.s0).2
    = st_trace Fixture.s0 ++ e1 :: rest ∧
    ev_call e1 = FsGetOvernightSignals "2026-01-05" "ALL" min_score' limit' ∧
    Forall (λ e, ev_call e = BqGetOvernightSignals "2026-01-05" "ALL" min_score' limit')
           rest.
Proof.
  assert (Hedge : (_get_user_tier Fixture.kwargs_edge Fixture.s0).1 = Ok (PStr "EDGE"))
    by (vm_compute; reflexivity).
  assert (Hdate : "2026-01-05" ≠ "latest") by discriminate.
  exact (conj Hedge (conj Hdate
           (proj1 (explicit_date_is_passed_on Fixture.mock_miss "ALL" 5 20 "FSLY"
                     "2026-01-05" Fixture.kwargs_edge Fixture.s0 _ Hedge Hdate)))).
Defined.


Lemma warehouse_answer_must_be_a_mapping_witness :
  (_get_user_tier Fixture.kwargs_edge Fixture.s0).1 = Ok (PStr "EDGE") ∧
  last (st_trace Doubles.none_signals.2)
  = Some (Doubles.last_event Doubles.none_signals.2) ∧
  is_primary (ev_call (Doubles.last_event Doubles.none_signals.2)) = false ∧
  ev_result (Doubles.last_event Doubles.none_signals.2) = Ok PNone ∧
  (∀ l, PNone ≠ PRef l) ∧
  Doubles.none_signals.1 = Raise AttributeError.
Proof.
  assert (Hedge : (_get_user_tier Fixture.kwargs_edge Fixture.s0).1 = Ok (PStr "EDGE"))
    by (vm_compute; reflexivity).
  assert (Hlast : last (st_trace Doubles.none_signals.2)
                  = Some (Doubles.last_event Doubles.none_signals.2))
    by (vm_compute; reflexivity).
  assert (Hnp : is_primary (ev_call (Doubles.last_event Doubles.none_signals.2)) = false)
    by (vm_compute; reflexivity).
  assert (Hres : ev_result (Doubles.last_event Doubles.none_signals.2) = Ok PNone)
    by (vm_compute; reflexivity).
  assert (Hnone : ∀ l, PNone ≠ PRef l) by discriminate.
  exact (conj Hedge (conj Hlast (conj Hnp (conj Hres (conj Hnone
           (proj1 (warehouse_answer_must_be_a_mapping Doubles.mock_warehouse_none
                     "ALL" 5 20 "latest" Fixture.kwargs_edge Fixture.s0 _ Hedge)
              _ _ _ _ (surjective_pairing Doubles.none_signals)
              Hlast Hnp Hres Hnone)))))).
Defined.

Lemma warehouse_missing_entries_witness :
  (_get_user_tier Fixture.kwargs_edge Fixture.s0).1 = Ok (PStr "EDGE") ∧
  Doubles.bare_signals = (Ok (PRef 10), Doubles.bare_signals.2) ∧
  last (st_trace Doubles.bare_signals.2)
  = Some (Doubles.last_event Doubles.bare_signals.2) ∧
  is_primary (ev_call (Doubles.last_event Doubles.bare_signals.2)) = false ∧
  ev_result (Doubles.last_event Doubles.bare_signals.2) = Ok (PRef 3) ∧
  ev_heap (Doubles.last_event Doubles.bare_signals.2) !! 3%positive
  = Some {[ "tier" := PStr "FREE" ]} ∧
  ∃ l d,
    PRef 10 = PRef l ∧ st_heap Doubles.bare_signals.2 !! l = Some d ∧
    (({[ "tier" := PStr "FREE" ]} : dict) !! "signals" = None →
     d !! "signals" = Some (PList []) ∧ d !! "total_signals" = Some (PInt 0)) ∧
    (({[ "tier" := PStr "FREE" ]} : dict) !! "scan_date" = None →
     d !! "scan_date" = Some (PStr (resolve_date "latest" (st_today Fixture.s0)))) ∧
    (∀ sd, ({[ "tier" := PStr "FREE" ]} : dict) !! "scan_date" = Some sd →
           d !! "scan_date" = Some sd).
Proof.
  assert (Hedge : (_get_user_tier Fixture.kwargs_edge Fixture.s0).1 = Ok (PStr "EDGE"))
    by (vm_compute; reflexivity).
  assert (Hrun : Doubles.bare_signals = (Ok (PRef 10), Doubles.bare_signals.2))
    by (vm_compute; reflexivity).
  assert (Hlast : last (st_trace Doubles.bare_signals.2)
                  = Some (Doubles.last_event Doubles.bare_signals.2))
    by (vm_compute; reflexivity).
  assert (Hnp : is_primary (ev_call (Doubles.last_event Doubles.bare_signals.2)) = false)
    by (vm_compute; reflexivity).
  assert (Hres : ev_result (Doubles.last_event Doubles.bare_signals.2) = Ok (PRef 3))
    by (vm_compute; reflexivity).
  assert (Hobj : ev_heap (Doubles.last_event Doubles.bare_signals.2) !! 3%positive
                 = Some {[ "tier" := PStr "FREE" ]})
    by (vm_compute; reflexivity).
  exact (conj Hedge (conj Hrun (conj Hlast (conj Hnp (conj Hres (conj Hobj
           (warehouse_missing_entries Doubles.mock_warehouse_bare "ALL" 5 20 "latest"
              Fixture.kwargs_edge Fixture.s0 _ _ _ _ _ _
              Hedge Hrun Hlast Hnp Hres Hobj))))))).
Defined.

Lemma store_outage_falls_back_witness :
  (∀ q st0, ∃ name st1,
     FirestoreClient.stream Fixture.firestore_down q st0
     = (Raise (Exception name), st1)) ∧
  (_get_user_tier Fixture.kwargs_free Fixture.s0).1 = Ok (PStr "FREE") ∧
  ∃ e1 e2 min_score' limit',
    st_trace (get_overnight_signals Doubles.outage "ALL" 5 20 "latest"
                Fixture.kwargs_free Fixture.s0).2
    = st_trace Fixture.s0 ++ [e1; e2] ∧
    ev_result e1 = Ok (PList []) ∧
    ev_call e2 = BqGetOvernightSignals "latest" "ALL" min_score' limit'.
Proof.
  assert (Hdown : ∀ q st0, ∃ name st1,
            FirestoreClient.stream Fixture.firestore_down q st0
            = (Raise (Exception name), st1))
    by (intros q st0; eexists _, _; reflexivity).
  assert (Hfree : (_get_user_tier Fixture.kwargs_free Fixture.s0).1 = Ok (PStr "FREE"))
    by (vm_compute; reflexivity).
  exact (conj Hdown (conj Hfree
           (proj1 (store_outage_falls_back Fixture.firestore_down _ _ _ _
                     "ALL" 5 20 "FSLY" "latest" Fixture.kwargs_free Fixture.s0 _
                     Hdown Hfree)))).
Defined.

Lemma response_entries_witness :
  (_get_user_tier Fixture.kwargs_free Fixture.s0).1 = Ok (PStr "FREE") ∧
  Fixture.free_signals_hit = (Ok (PRef 12), Fixture.free_signals_hit.2) ∧
  ∃ l d, PRef 12 = PRef l ∧ st_heap Fixture.free_signals_hit.2 !! l = Some d ∧
    dom d = if py_eq_str (PStr "FREE") "FREE"
            then {[ "scan_date"; "total_signals"; "signals"; "upgrade" ]}
            else {[ "scan_date"; "total_signals"; "signals" ]}.
Proof.
  assert (Hfree : (_get_user_tier Fixture.kwargs_free Fixture.s0).1 = Ok (PStr "FREE"))
    by (vm_compute; reflexivity).
  assert (Hrun : Fixture.free_signals_hit = (Ok (PRef 12), Fixture.free_signals_hit.2))
    by (vm_compute; reflexivity).
  exact (conj Hfree (conj Hrun
           (proj1 (response_entries Fixture.mock_hit "ALL" 5 10 "latest"
                     Fixture.kwargs_free Fixture.s0 _ Hfree) _ _ Hrun))).
Defined.
